(** * Picking in harp.gl: a model of [@here/harp-mapview/lib/PickHandler.ts]

    The development embeds the feature index resolver
    ([getIntersectedFeatureIndex]), the construction of a [PickResult] from a
    raw intersection ([addObjInfo] and the body of the loop of
    [intersectMapObjects]) and the query [intersectMapObjects] itself, and
    proves the properties the specification states about them.

    Conventions of the embedding.
    - Indices ([faceIndex], [index], the entries of [starts]) are JavaScript
      numbers holding integers; they are values of [Z].
    - Distances and coordinates are JavaScript numbers; they are values of [Q].
      The query only passes them on and compares them: the comparator of the
      final sort is [a.distance - b.distance], whose sign on finite numbers is
      the sign of the exact difference.  [NaN] is not represented.
    - An optional property ([featureId?], [userData?], ...) is an [option];
      [None] is what a read of the property yields [undefined] for.
    - A call that raises a [TypeError] (a property read on [undefined]) is a
      [Throw] of the [completion] type.
    - The performance timer, the log line and the [Render] listener the
      constructor installs do not touch what a query returns and are left
      out. *)

From Stdlib Require Import ZArith QArith List Bool String Lia Lqa.
From Stdlib Require Import Sorting.Sorted Sorting.Permutation.
From Equations Require Import Equations.
Import ListNotations.

Set Implicit Arguments.
Local Open Scope Z_scope.

(** ** Completions: a value or a thrown error *)

Inductive JSError : Type := TypeError.

Inductive completion (A : Type) : Type :=
| Normal (a : A)
| Throw (e : JSError).
Arguments Normal {A} a.
Arguments Throw {A} e.

Definition bind {A B} (c : completion A) (k : A -> completion B) : completion B :=
  match c with
  | Normal a => k a
  | Throw e => Throw e
  end.

Notation "x <- c ;; k" := (bind c (fun x => k))
  (at level 61, c at next level, right associativity).

(** ** Vectors and boxes *)

Record Vector2 : Type := { x2 : Q; y2 : Q }.
Record Vector3 : Type := { x3 : Q; y3 : Q; z3 : Q }.

(** [THREE.Vector3.sub] and [add]. *)
Definition Vector3_sub (a b : Vector3) : Vector3 :=
  {| x3 := (x3 a - x3 b)%Q; y3 := (y3 a - y3 b)%Q; z3 := (z3 a - z3 b)%Q |}.

Definition Vector3_add (a b : Vector3) : Vector3 :=
  {| x3 := (x3 a + x3 b)%Q; y3 := (y3 a + y3 b)%Q; z3 := (z3 a + z3 b)%Q |}.

Definition Vector3_zero : Vector3 := {| x3 := 0%Q; y3 := 0%Q; z3 := 0%Q |}.

Record OrientedBox3 : Type := {
  position : Vector3;
  xAxis : Vector3;
  yAxis : Vector3;
  zAxis : Vector3;
  extents : Vector3
}.

(** [OrientedBox3.copy]: every component of the receiver is overwritten. *)
Definition OrientedBox3_copy (self other : OrientedBox3) : OrientedBox3 :=
  {| position := position other;
     xAxis := xAxis other;
     yAxis := yAxis other;
     zAxis := zAxis other;
     extents := extents other |}.

(** [obb.position.sub(v)]. *)
Definition OrientedBox3_position_sub (self : OrientedBox3) (v : Vector3) : OrientedBox3 :=
  {| position := Vector3_sub (position self) v;
     xAxis := xAxis self;
     yAxis := yAxis self;
     zAxis := zAxis self;
     extents := extents self |}.

Record Ray : Type := { origin : Vector3; direction : Vector3 }.
Record Raycaster : Type := { ray : Ray }.
Record Plane : Type := { normal : Vector3; constant : Q }.
Record Camera : Type := { cameraPosition : Vector3 }.
Record Sphere : Type := { center : Vector3; radius : Q }.

(** ** Enumerations *)

Module PickObjectType.
Inductive t : Type :=
| Unspecified
| Point
| Line
| Area
| Text
| Icon
| Object3D.
End PickObjectType.

(** The enumeration [GeometryType] is declared in
    [@here/harp-datasource-protocol].  The members the switch of
    [intersectMapObjects] names are listed; [Unlisted tag] stands for every
    other value of the enumeration, identified by its numeric tag. *)
Module GeometryType.
Inductive t : Type :=
| Point
| Text
| Line
| ExtrudedLine
| SolidLine
| TextPath
| Polygon
| ExtrudedPolygon
| Object3D
| Unlisted (tag : Z).
End GeometryType.

(** ** Scene objects *)

(** Per-feature records and techniques are opaque to the picker, which only
    hands references to them on: a reference is modelled by its address. *)
Definition ObjInfo : Type := Z.
Definition Technique : Type := Z.
Definition FeatureId : Type := Z.

Record TileFeatureData : Type := {
  geometryType : option GeometryType.t;
  starts : option (list Z);
  objInfos : option (list ObjInfo);
  boundingVolumes : option (list Sphere)
}.

Record UserData : Type := {
  feature : option TileFeatureData;
  technique : option Technique
}.

(** The classes of [THREE.Object3D] the picker tests with [instanceof]. *)
Inductive ObjectClass : Type :=
| MapViewPoints
| Mesh
| OtherObject.

Module Object3D.
Record t : Type := {
  class : ObjectClass;
  userData : option UserData
}.
End Object3D.

Definition instanceofMapViewPoints (o : Object3D.t) : bool :=
  match Object3D.class o with MapViewPoints => true | _ => false end.

Definition instanceofMesh (o : Object3D.t) : bool :=
  match Object3D.class o with Mesh => true | _ => false end.

Module Intersection.
Record t : Type := {
  distance : Q;
  point : Vector3;
  faceIndex : option Z;
  index : option Z;
  object : Object3D.t
}.
End Intersection.

(** ** Arrays *)

(** [a[i]] for a JavaScript array [a] and an integer [i]: [undefined] out of
    range, a negative index included. *)
Definition array_get {A} (a : list A) (i : Z) : option A :=
  if i <? 0 then None else nth_error a (Z.to_nat i).

(** ** The feature index resolver *)

(** The [for ... of] loop of [getIntersectedFeatureIndex]: [featureIndex] is
    incremented for every entry until the first one above [intersectIndex]. *)
Fixpoint scanStarts (starts : list Z) (intersectIndex featureIndex : Z) : Z :=
  match starts with
  | [] => featureIndex
  | featureStartIndex :: rest =>
      if featureStartIndex >? intersectIndex then featureIndex
      else scanStarts rest intersectIndex (featureIndex + 1)
  end.

(** The scan of lines 85 to 93: [featureIndex] starts at 0 and the function
    returns [featureIndex - 1]. *)
Definition linearSearch (starts : list Z) (intersectIndex : Z) : Z :=
  scanStarts starts intersectIndex 0 - 1.

(** The buffer-local index,
    [intersect.faceIndex !== undefined ? intersect.faceIndex * 3 : intersect.index];
    it is [None] exactly when [faceIndex] and [index] are both [undefined]. *)
Definition intersectIndex (intersect : Intersection.t) : option Z :=
  match Intersection.faceIndex intersect with
  | Some faceIndex => Some (faceIndex * 3)
  | None => Intersection.index intersect
  end.

(** [getIntersectedFeatureIndex].  The read [intersect.object.userData.feature]
    throws when [userData] is [undefined]; a result [undefined] is [None]. *)
Definition getIntersectedFeatureIndex (intersect : Intersection.t) : completion (option Z) :=
  match Object3D.userData (Intersection.object intersect) with
  | None => Throw TypeError
  | Some ud =>
      match feature ud with
      | None => Normal None
      | Some featureData =>
          if instanceofMapViewPoints (Intersection.object intersect)
          then Normal (Intersection.index intersect)
          else
            match starts featureData with
            | None => Normal None
            | Some ss =>
                if Nat.eqb (List.length ss) 0 then Normal None
                else
                  match intersectIndex intersect with
                  | None => Normal None
                  | Some i =>
                      if Nat.eqb (List.length ss) 1 then Normal (Some 0)
                      else Normal (Some (linearSearch ss i))
                  end
            end
      end
  end.

(** ** Pick results *)

Module PickResult.
Record t : Type := {
  type : PickObjectType.t;
  point : Vector2 + Vector3;
  distance : Q;
  featureId : option FeatureId;
  intersection : option Intersection.t;
  technique : option Technique;
  userData : option ObjInfo
}.

(** [pickResult.technique = v], [pickResult.userData = v],
    [pickResult.featureId = v] and [pickResult.type = v]. *)
Definition set_technique (r : t) (v : option Technique) : t :=
  {| type := type r; point := point r; distance := distance r;
     featureId := featureId r; intersection := intersection r;
     technique := v; userData := userData r |}.

Definition set_userData (r : t) (v : option ObjInfo) : t :=
  {| type := type r; point := point r; distance := distance r;
     featureId := featureId r; intersection := intersection r;
     technique := technique r; userData := v |}.

Definition set_featureId (r : t) (v : option FeatureId) : t :=
  {| type := type r; point := point r; distance := distance r;
     featureId := v; intersection := intersection r;
     technique := technique r; userData := userData r |}.

Definition set_type (r : t) (v : PickObjectType.t) : t :=
  {| type := v; point := point r; distance := distance r;
     featureId := featureId r; intersection := intersection r;
     technique := technique r; userData := userData r |}.
End PickResult.

(** ** Sorting an array

    [Array.prototype.sort(comparefn)] belongs to the language.  ECMAScript
    fixes its result for a consistent comparator: the elements in ascending
    order of [comparefn], elements that compare equal in their original order.
    [Array_sort] is the insertion sort that computes this list; an element
    moves behind its neighbour only when [comparefn] is positive. *)

Section ArraySort.
Variable A : Type.
Variable comparefn : A -> A -> Q.

Fixpoint Array_insert (a : A) (sorted : list A) : list A :=
  match sorted with
  | [] => [a]
  | b :: rest =>
      if Qle_bool (comparefn a b) 0 then a :: b :: rest
      else b :: Array_insert a rest
  end.

Fixpoint Array_sort (l : list A) : list A :=
  match l with
  | [] => []
  | a :: rest => Array_insert a (Array_sort rest)
  end.
End ArraySort.

(** ** The debug overlay

    [m_debugGroup] collects helper objects that are only displayed.  A helper
    is recorded by what it was made from; the meshes built from it are not
    modelled. *)
Inductive DebugObject : Type :=
| DebugOBBox (obb : OrientedBox3)        (* addDebugWorldOBBox *)
| DebugBBox (object : Object3D.t)       (* addDebugBBox of the hit mesh *)
| DebugBSphere (sphere : Sphere)        (* addDebugBSphere *)
| DebugRay (r : Ray) (length : Q).      (* addDebugRay *)

(** [addDebugBSphere(position, sphere, color)]: reading [sphere.radius] throws
    when [sphere] is [undefined]. *)
Definition addDebugBSphere (sphere : option Sphere) (group : list DebugObject)
  : completion (list DebugObject) :=
  match sphere with
  | None => Throw TypeError
  | Some s => Normal (group ++ [DebugBSphere s])
  end.

(** [addDebugIntersect(intersect)].  The helpers drawn from
    [geometry.userData.debug] depend on the mesh geometry alone and are left
    out. *)
Definition addDebugIntersect (intersect : Intersection.t) (group : list DebugObject)
  : completion (list DebugObject) :=
  if negb (instanceofMesh (Intersection.object intersect)) then Normal group
  else
    let group := group ++ [DebugBBox (Intersection.object intersect)] in
    resolved <- getIntersectedFeatureIndex intersect ;;
    let featureIndex := match resolved with Some i => i | None => 0 end in
    match Object3D.userData (Intersection.object intersect) with
    | None => Throw TypeError
    | Some ud =>
        match feature ud with
        | None => Throw TypeError
        | Some featureData =>
            match boundingVolumes featureData with
            | None => Normal group
            | Some volumes =>
                if Z.of_nat (List.length volumes) >? featureIndex
                then addDebugBSphere (array_get volumes featureIndex) group
                else Normal group
            end
        end
    end.

(** ** The scene

    The classes below are declared in files of the repository that the picker
    imports ([Tile.ts], [MapView.ts], [RoadPicker.ts], the text renderer).  A
    class is a record of the properties the picker reads; a method is a field
    holding a function. *)

Record DataSource : Type := { name : string }.

Record Tile : Type := {
  boundingBox : OrientedBox3;
  objects : list Object3D.t
}.

Record DataSourceTileList : Type := {
  dataSource : DataSource;
  renderedTiles : list Tile
}.

(** [pickTextElements(screenPosition, pickResults)] is called on the empty
    array: the field gives the array after the call. *)
Record TextElementsRenderer : Type := {
  pickTextElements : Vector2 -> list PickResult.t
}.

Record Canvas : Type := { clientWidth : Q; clientHeight : Q }.

Record MapView : Type := {
  getNormalizedScreenCoordinates : Q -> Q -> Vector3;
  raycasterFromScreenPoint : Q -> Q -> Raycaster;
  textElementsRenderer : option TextElementsRenderer;
  canvas : Canvas;
  pixelRatio : Q;
  dataSourceTileList : list DataSourceTileList;   (* visibleTileSet.dataSourceTileList *)
  worldCenter : Vector3;
  camera : Camera;
  (** the tiles [forEachVisibleTile] calls its argument on, in order *)
  forEachVisibleTile : list Tile
}.

Definition RoadIntersectionData : Type := Z.

(** Modelled from the spec: the class [RoadPicker] of [RoadPicker.ts].
    [intersectRoads(tile, cameraPosition, groundPoint, results)] appends its
    hits to the shared result list: the field gives the hits appended. *)
Module RoadPicker.
Record t : Type := {
  registerTile : Tile -> RoadIntersectionData;
  intersectRoads : Tile -> Vector3 -> Vector3 -> list PickResult.t
}.
End RoadPicker.

(** What the picker imports from other packages. *)
Class Toolkit : Type := {
  (** [getFeatureId] of [@here/harp-datasource-protocol] *)
  getFeatureId : option ObjInfo -> FeatureId;
  (** [OrientedBox3.intersectsRay] of [@here/harp-geoutils]: a distance, or
      [undefined] *)
  intersectsRay : OrientedBox3 -> Ray -> option Q;
  (** [THREE.Raycaster.intersectObjects(objects, true, target)]: the target
      array after the call *)
  intersectObjects : Raycaster -> list Object3D.t -> list Intersection.t -> list Intersection.t;
  (** [THREE.Raycaster.setFromCamera(coords, camera)]: the raycaster after the
      call *)
  setFromCamera : Raycaster -> Vector3 -> Camera -> Raycaster;
  (** [THREE.Ray.intersectPlane(plane, target)]: the point written to
      [target], or [null] *)
  intersectPlane : Ray -> Plane -> option Vector3;
  (** [new RoadPicker(mapView)] *)
  newRoadPicker : MapView -> RoadPicker.t
}.

(** ** From an intersection to a pick result *)

(** [addObjInfo(featureData, intersect, pickResult)]. *)
Definition addObjInfo (featureData : TileFeatureData) (intersect : Intersection.t)
    (pickResult : PickResult.t) : completion PickResult.t :=
  match objInfos featureData with
  | None => Normal pickResult
  | Some infos =>
      featureIndex <- getIntersectedFeatureIndex intersect ;;
      match featureIndex with
      | Some i => Normal (PickResult.set_userData pickResult (array_get infos i))
      | None => Normal pickResult
      end
  end.

(** The [switch] over [featureData.geometryType]. *)
Definition pickObjectTypeOf (geometryType : option GeometryType.t) : PickObjectType.t :=
  match geometryType with
  | Some GeometryType.Point
  | Some GeometryType.Text => PickObjectType.Point
  | Some GeometryType.Line
  | Some GeometryType.ExtrudedLine
  | Some GeometryType.SolidLine
  | Some GeometryType.TextPath => PickObjectType.Line
  | Some GeometryType.Polygon
  | Some GeometryType.ExtrudedPolygon => PickObjectType.Area
  | Some GeometryType.Object3D => PickObjectType.Object3D
  | _ => PickObjectType.Unspecified
  end.

(** The object literal that opens the body of the loop over [intersects]. *)
Definition initialPickResult (intersect : Intersection.t) : PickResult.t :=
  {| PickResult.type := PickObjectType.Unspecified;
     PickResult.point := inr (Intersection.point intersect);
     PickResult.distance := Intersection.distance intersect;
     PickResult.featureId := None;
     PickResult.intersection := Some intersect;
     PickResult.technique := None;
     PickResult.userData := None |}.

(** [intersect.object.userData.feature], guarded by the test of lines 233 to
    236. *)
Definition featureOf (intersect : Intersection.t) : option TileFeatureData :=
  match Object3D.userData (Intersection.object intersect) with
  | None => None
  | Some ud => feature ud
  end.

Definition techniqueOf (intersect : Intersection.t) : option Technique :=
  match Object3D.userData (Intersection.object intersect) with
  | None => None
  | Some ud => technique ud
  end.

(** The body of the loop over [intersects] (lines 226 to 283): the pick result
    pushed for [intersect] and the debug group after the iteration. *)
Definition pickIntersect `{Toolkit} (enablePickTechnique : bool)
    (intersect : Intersection.t) (group : list DebugObject)
  : completion (PickResult.t * list DebugObject) :=
  let pickResult := initialPickResult intersect in
  match featureOf intersect with
  | None => Normal (pickResult, group)
  | Some featureData =>
      group <- addDebugIntersect intersect group ;;
      let pickResult :=
        if enablePickTechnique
        then PickResult.set_technique pickResult (techniqueOf intersect)
        else pickResult in
      pickResult <- addObjInfo featureData intersect pickResult ;;
      let pickResult :=
        match objInfos featureData with
        | Some infos =>
            PickResult.set_featureId pickResult
              (if Nat.eqb (List.length infos) 1
               then Some (getFeatureId (array_get infos 0))
               else None)
        | None => pickResult
        end in
      Normal (PickResult.set_type pickResult (pickObjectTypeOf (geometryType featureData)),
              group)
  end.

(** The loop over [intersects]; a throw ends the query. *)
Fixpoint pickIntersects `{Toolkit} (enablePickTechnique : bool)
    (intersects : list Intersection.t) (group : list DebugObject)
  : completion (list PickResult.t * list DebugObject) :=
  match intersects with
  | [] => Normal ([], group)
  | intersect :: rest =>
      step <- pickIntersect enablePickTechnique intersect group ;;
      more <- pickIntersects enablePickTechnique rest (snd step) ;;
      Normal (fst step :: fst more, snd more)
  end.

(** ** The pick handler *)

Record PickHandler : Type := {
  mapView : MapView;
  handlerCamera : Camera;
  enableRoadPicking : bool;
  enablePickTechnique : bool;
  m_plane : Plane;
  m_roadPicker : option RoadPicker.t
}.

(** The constructor; [enableRoadPicking] and [enablePickTechnique] default to
    [true] and [false]. *)
Definition newPickHandler `{Toolkit} (mapView : MapView) (camera : Camera)
    (enableRoadPicking enablePickTechnique : bool) : PickHandler :=
  {| mapView := mapView;
     handlerCamera := camera;
     enableRoadPicking := enableRoadPicking;
     enablePickTechnique := enablePickTechnique;
     m_plane := {| normal := {| x3 := 0%Q; y3 := 0%Q; z3 := 1%Q |}; constant := 0%Q |};
     m_roadPicker := if enableRoadPicking then Some (newRoadPicker mapView) else None |}.

(** [registerTile(tile)]. *)
Definition registerTile (h : PickHandler) (tile : Tile) : option RoadIntersectionData :=
  match m_roadPicker h with
  | Some roadPicker => Some (RoadPicker.registerTile roadPicker tile)
  | None => None
  end.

(** What a query writes to: the module variable [tmpOBB], the children of
    [m_debugGroup], and the number of calls of [mapView.update()]. *)
Record PickState : Type := {
  tmpOBB : OrientedBox3;
  m_debugGroup : list DebugObject;
  updates : nat
}.

(** *** Labels (lines 195 to 201) *)

Definition labelHits (h : PickHandler) (x y : Q) : list PickResult.t :=
  let mv := mapView h in
  let worldPos := getNormalizedScreenCoordinates mv x y in
  match textElementsRenderer mv with
  | Some renderer =>
      let screenX := (x3 worldPos * clientWidth (canvas mv) * (1 # 2) * pixelRatio mv)%Q in
      let screenY := (y3 worldPos * clientHeight (canvas mv) * (1 # 2) * pixelRatio mv)%Q in
      pickTextElements renderer {| x2 := screenX; y2 := screenY |}
  | None => []
  end.

(** *** The broad phase (lines 204 to 222) *)

(** What the two nested [forEach] loops carry along: the array [intersects],
    the state, and (for the statements only) the tiles that were handed to
    [intersectObjects]. *)
Record BroadPhase : Type := {
  intersects : list Intersection.t;
  raycastTiles : list Tile;
  broadState : PickState
}.

Definition isSkippedDataSource (d : DataSource) : bool :=
  String.eqb (name d) "Terrain" || String.eqb (name d) "background".

(** The callback of [renderedTiles.forEach]. *)
Definition cullTile `{Toolkit} (mv : MapView) (rayCaster : Raycaster)
    (acc : BroadPhase) (tile : Tile) : BroadPhase :=
  let s := broadState acc in
  let obb := OrientedBox3_position_sub
               (OrientedBox3_copy (tmpOBB s) (boundingBox tile)) (worldCenter mv) in
  match intersectsRay obb (ray rayCaster) with
  | Some _ =>
      {| intersects := intersectObjects rayCaster (objects tile) (intersects acc);
         raycastTiles := raycastTiles acc ++ [tile];
         broadState := {| tmpOBB := obb;
                          m_debugGroup := m_debugGroup s ++ [DebugOBBox (boundingBox tile)];
                          updates := updates s |} |}
  | None =>
      {| intersects := intersects acc;
         raycastTiles := raycastTiles acc;
         broadState := {| tmpOBB := obb;
                          m_debugGroup := m_debugGroup s;
                          updates := updates s |} |}
  end.

(** The callback of [tileList.forEach]. *)
Definition cullDataSource `{Toolkit} (mv : MapView) (rayCaster : Raycaster)
    (acc : BroadPhase) (entry : DataSourceTileList) : BroadPhase :=
  if isSkippedDataSource (dataSource entry) then acc
  else fold_left (cullTile mv rayCaster) (renderedTiles entry) acc.

Definition broadPhase `{Toolkit} (h : PickHandler) (x y : Q) (s : PickState) : BroadPhase :=
  let mv := mapView h in
  fold_left (cullDataSource mv (raycasterFromScreenPoint mv x y))
            (dataSourceTileList mv)
            {| intersects := []; raycastTiles := []; broadState := s |}.

(** *** Roads (lines 291 to 306) *)

(** The raycaster after line 295. *)
Definition roadRaycaster `{Toolkit} (h : PickHandler) (x y : Q) : Raycaster :=
  let mv := mapView h in
  if enableRoadPicking h
  then setFromCamera (raycasterFromScreenPoint mv x y)
                     (getNormalizedScreenCoordinates mv x y) (camera mv)
  else raycasterFromScreenPoint mv x y.

(** The callback of [forEachVisibleTile], folded over the visited tiles:
    [this.m_roadPicker!] throws on a call when no road picker exists. *)
Fixpoint intersectRoadsOf (roadPicker : option RoadPicker.t) (cameraPos ground : Vector3)
    (tiles : list Tile) : completion (list PickResult.t) :=
  match tiles with
  | [] => Normal []
  | tile :: rest =>
      match roadPicker with
      | None => Throw TypeError
      | Some rp =>
          more <- intersectRoadsOf roadPicker cameraPos ground rest ;;
          Normal (RoadPicker.intersectRoads rp tile cameraPos ground ++ more)
      end
  end.

Definition roadHits `{Toolkit} (h : PickHandler) (x y : Q) : completion (list PickResult.t) :=
  let mv := mapView h in
  if enableRoadPicking h then
    let cameraPos := cameraPosition (camera mv) in
    let planeIntersectPosition :=
      match intersectPlane (ray (roadRaycaster h x y)) (m_plane h) with
      | Some p => p
      | None => Vector3_zero
      end in
    intersectRoadsOf (m_roadPicker h) cameraPos planeIntersectPosition (forEachVisibleTile mv)
  else Normal [].

(** *** The query *)

(** The comparator of line 308. *)
Definition byDistance (a b : PickResult.t) : Q :=
  (PickResult.distance a - PickResult.distance b)%Q.

(** [addDebugRay(ray, length, color)]. *)
Definition addDebugRay (mv : MapView) (r : Ray) (length : Q) (group : list DebugObject)
  : list DebugObject :=
  group ++ [DebugRay {| origin := Vector3_add (origin r) (worldCenter mv);
                        direction := direction r |} length].

(** The geometry hits: the broad phase followed by the loop over
    [intersects]. *)
Definition geometryHits `{Toolkit} (h : PickHandler) (x y : Q) (s : PickState)
  : completion (list PickResult.t * list DebugObject) :=
  let cleared := {| tmpOBB := tmpOBB s; m_debugGroup := []; updates := updates s |} in
  let broad := broadPhase h x y cleared in
  pickIntersects (enablePickTechnique h) (intersects broad)
                 (m_debugGroup (broadState broad)).

(** [intersectMapObjects(x, y)]: the returned array and the state after the
    call. *)
Definition intersectMapObjects `{Toolkit} (h : PickHandler) (x y : Q) (s : PickState)
  : completion (list PickResult.t * PickState) :=
  let mv := mapView h in
  let cleared := {| tmpOBB := tmpOBB s; m_debugGroup := []; updates := updates s |} in
  let labels := labelHits h x y in
  let broad := broadPhase h x y cleared in
  geometry <- pickIntersects (enablePickTechnique h) (intersects broad)
                             (m_debugGroup (broadState broad)) ;;
  roads <- roadHits h x y ;;
  let pickResults := Array_sort byDistance (labels ++ fst geometry ++ roads) in
  let group :=
    match pickResults with
    | first :: _ =>
        addDebugRay mv (ray (roadRaycaster h x y)) (PickResult.distance first) (snd geometry)
    | [] => snd geometry
    end in
  Normal (pickResults,
          {| tmpOBB := tmpOBB (broadState broad);
             m_debugGroup := group;
             updates := S (updates s) |}).

(** ** The binary search of the specification

    The specification asks for the scan over [starts] to be replaced by a
    binary search: find the first offset greater than the target, then step
    back one.  [upperBound] is that search on the index range [lo, hi). *)

Equations? upperBound (starts : list Z) (target : Z) (lo hi : nat) : nat
  by wf (hi - lo)%nat lt :=
  upperBound starts target lo hi with lt_dec lo hi => {
    | right _ => lo
    | left _ with Z_gt_dec (nth ((lo + hi) / 2) starts 0) target => {
        | left _ => upperBound starts target lo ((lo + hi) / 2)
        | right _ => upperBound starts target (S ((lo + hi) / 2)) hi } }.
Proof.
  all: change (fst (Nat.divmod (lo + hi) 1 0 1)) with ((lo + hi) / 2)%nat;
       assert ((lo + hi) / 2 < hi)%nat by (apply Nat.Div0.div_lt_upper_bound; lia);
       assert (lo <= (lo + hi) / 2)%nat by (apply Nat.div_le_lower_bound; lia);
       lia.
Qed.

Definition binarySearch (starts : list Z) (target : Z) : Z :=
  Z.of_nat (upperBound starts target 0 (List.length starts)) - 1.

(** ** What the statements speak about *)

(** The number of entries of [starts] that do not exceed [i]. *)
Definition countLe (starts : list Z) (i : Z) : Z :=
  Z.of_nat (List.length (filter (fun s => s <=? i) starts)).

(** A split point of [ss] at [t]: the entries before it are at most [t], the
    entries from it on are greater. *)
Definition splitsAt (ss : list Z) (t : Z) (r : nat) : Prop :=
  (r <= List.length ss)%nat /\
  (forall j, (j < r)%nat -> nth j ss 0 <= t) /\
  (forall j, (r <= j < List.length ss)%nat -> nth j ss 0 > t).

(** A hit is harmless when it is not on a mesh or does not resolve to -1. *)
Definition harmless (intersect : Intersection.t) : Prop :=
  instanceofMesh (Intersection.object intersect) = true ->
  getIntersectedFeatureIndex intersect <> Normal (Some (-1)).

(** [a.distance <= b.distance], and the results at distance [d]. *)
Definition distance_le (a b : PickResult.t) : Prop :=
  (PickResult.distance a <= PickResult.distance b)%Q.

Definition atDistance (d : Q) (r : PickResult.t) : bool :=
  Qeq_bool (PickResult.distance r) d.

(** The box the broad phase tests for [tile]: its bounding box moved by the
    world centre. *)
Definition cullBox (mv : MapView) (tile : Tile) : OrientedBox3 :=
  OrientedBox3_position_sub (boundingBox tile) (worldCenter mv).

(** The returned array of a query, without the state. *)
Definition returned {A S} (c : completion (A * S)) : completion A :=
  match c with
  | Normal (a, _) => Normal a
  | Throw e => Throw e
  end.

(** ** A small scene

    Concrete objects, hits and a concrete scene, on which the statements
    below are instantiated. *)

Definition sampleFeature (ss : option (list Z)) (volumes : option (list Sphere))
  : TileFeatureData :=
  {| geometryType := Some GeometryType.Polygon;
     starts := ss;
     objInfos := Some [100; 101; 102];
     boundingVolumes := volumes |}.

Definition sampleObject (c : ObjectClass) (fd : option TileFeatureData) : Object3D.t :=
  {| Object3D.class := c;
     Object3D.userData := Some {| feature := fd; technique := Some 7 |} |}.

Definition sampleHit (o : Object3D.t) (face vertex : option Z) : Intersection.t :=
  {| Intersection.distance := 5%Q;
     Intersection.point := Vector3_zero;
     Intersection.faceIndex := face;
     Intersection.index := vertex;
     Intersection.object := o |}.

(** A line object (neither a mesh nor a point primitive) hit at vertex [i]. *)
Definition lineHit (ss : list Z) (i : Z) : Intersection.t :=
  sampleHit (sampleObject OtherObject (Some (sampleFeature (Some ss) None))) None (Some i).

(** A point primitive hit at point [i]. *)
Definition pointsHit (ss : list Z) (i : Z) : Intersection.t :=
  sampleHit (sampleObject MapViewPoints (Some (sampleFeature (Some ss) None))) None (Some i).

Definition sampleResult (k : PickObjectType.t) (d : Q) : PickResult.t :=
  {| PickResult.type := k;
     PickResult.point := inl {| x2 := 0%Q; y2 := 0%Q |};
     PickResult.distance := d;
     PickResult.featureId := None;
     PickResult.intersection := None;
     PickResult.technique := None;
     PickResult.userData := None |}.

(** A toolkit: a box is hit when it lies at or left of the origin; every
    object of a tile raycast is hit once, at distance 5, on face 4. *)
#[local] Instance sampleToolkit : Toolkit :=
  {| getFeatureId := fun o => match o with Some v => v | None => 0 end;
     intersectsRay := fun obb _ =>
       if Qle_bool (x3 (position obb)) 0 then Some 1%Q else None;
     intersectObjects := fun _ objs target =>
       target ++ map (fun o => sampleHit o (Some 4) None) objs;
     setFromCamera := fun rc _ _ => rc;
     intersectPlane := fun _ _ => Some Vector3_zero;
     newRoadPicker := fun _ =>
       {| RoadPicker.registerTile := fun _ => 0;
          RoadPicker.intersectRoads := fun _ _ _ => [sampleResult PickObjectType.Line 5%Q] |} |}.

Definition sampleBox (x : Q) : OrientedBox3 :=
  {| position := {| x3 := x; y3 := 0%Q; z3 := 0%Q |};
     xAxis := {| x3 := 1%Q; y3 := 0%Q; z3 := 0%Q |};
     yAxis := {| x3 := 0%Q; y3 := 1%Q; z3 := 0%Q |};
     zAxis := {| x3 := 0%Q; y3 := 0%Q; z3 := 1%Q |};
     extents := {| x3 := 1%Q; y3 := 1%Q; z3 := 1%Q |} |}.

(** A polygon mesh with three features, and one whose first feature starts
    at offset 15 and which carries a bounding volume. *)
Definition polygonFeature : TileFeatureData := sampleFeature (Some [0; 10; 25]) None.

Definition lateFeature : TileFeatureData :=
  sampleFeature (Some [15; 20]) (Some [{| center := Vector3_zero; radius := 1%Q |}]).

(** A tile at [x] holding one mesh. *)
Definition sampleTile (fd : TileFeatureData) (x : Q) : Tile :=
  {| boundingBox := sampleBox x;
     objects := [sampleObject Mesh (Some fd)] |}.

(** A map view with a label at distance 5 and a second one at distance 2; the
    data source [omv] shows [tiles], and the terrain tile is in the way of
    every ray. *)
Definition sampleMapView (tiles : list Tile) : MapView :=
  {| getNormalizedScreenCoordinates := fun x y => {| x3 := x; y3 := y; z3 := 0%Q |};
     raycasterFromScreenPoint := fun x y =>
       {| ray := {| origin := Vector3_zero;
                    direction := {| x3 := x; y3 := y; z3 := (-1)%Q |} |} |};
     textElementsRenderer :=
       Some {| pickTextElements := fun _ =>
                 [sampleResult PickObjectType.Text 5%Q;
                  sampleResult PickObjectType.Icon 2%Q] |};
     canvas := {| clientWidth := 800%Q; clientHeight := 600%Q |};
     pixelRatio := 1%Q;
     dataSourceTileList :=
       [ {| dataSource := {| name := "Terrain" |};
            renderedTiles := [sampleTile polygonFeature 0%Q] |};
         {| dataSource := {| name := "omv" |}; renderedTiles := tiles |} ];
     worldCenter := Vector3_zero;
     camera := {| cameraPosition := Vector3_zero |};
     forEachVisibleTile := tiles |}.

Definition sampleHandler (tiles : list Tile) : PickHandler :=
  newPickHandler (sampleMapView tiles) {| cameraPosition := Vector3_zero |} true false.

Definition sampleState : PickState :=
  {| tmpOBB := sampleBox 9%Q;
     m_debugGroup := [DebugBSphere {| center := Vector3_zero; radius := 3%Q |}];
     updates := 0 |}.

(** Two tiles of polygons, the first in the way of the ray, the second not;
    one tile that the ray misses; one tile in the way whose mesh has its first
    feature at offset 15. *)
Definition hitAndMissTiles : list Tile :=
  [sampleTile polygonFeature 0%Q; sampleTile polygonFeature 1%Q].

Definition missedTiles : list Tile := [sampleTile polygonFeature 1%Q].

Definition lateTiles : list Tile := [sampleTile lateFeature 0%Q].

(** The hit the sample raycaster reports on the mesh of [lateTiles]: face 4,
    buffer-local index 12, below both entries of [starts]. *)
Definition lateHit : Intersection.t :=
  sampleHit (sampleObject Mesh (Some lateFeature)) (Some 4) None.

(** The query at the screen centre on the first scene, evaluated. *)
Definition sampleOutcome : completion (list PickResult.t * PickState) :=
  Eval vm_compute in
    intersectMapObjects (sampleHandler hitAndMissTiles) 0%Q 0%Q sampleState.

Definition sampleResults : list PickResult.t :=
  match sampleOutcome with
  | Normal (results, _) => results
  | Throw _ => []
  end.

Definition sampleStateAfter : PickState :=
  match sampleOutcome with
  | Normal (_, s) => s
  | Throw _ => sampleState
  end.

(** ** The phases of a query, described

    What the loops of [intersectMapObjects] amount to, written without the
    loops; the properties below relate the code to these descriptions. *)

(** The rendered tiles of the data sources that are not skipped, in the
    order the two [forEach] loops visit them. *)
Definition pickableTiles (mv : MapView) : list Tile :=
  flat_map renderedTiles
    (filter (fun entry => negb (isSkippedDataSource (dataSource entry)))
            (dataSourceTileList mv)).

(** [tmpOBB.intersectsRay(rayCaster.ray) !== undefined] for the box of
    [tile]. *)
Definition inTheWay `{Toolkit} (mv : MapView) (rayCaster : Raycaster) (tile : Tile) : bool :=
  match intersectsRay (cullBox mv tile) (ray rayCaster) with
  | Some _ => true
  | None => false
  end.

(** [intersectObjects] called on [tiles] one after the other, on one target
    array that starts empty. *)
Definition raycastAll `{Toolkit} (rayCaster : Raycaster) (tiles : list Tile)
  : list Intersection.t :=
  fold_left (fun target tile => intersectObjects rayCaster (objects tile) target) tiles [].

(** The point handed to the road picker: where the ray meets [m_plane], and
    the zero vector [planeIntersectPosition] was created as when
    [intersectPlane] finds no point. *)
Definition groundPoint `{Toolkit} (h : PickHandler) (x y : Q) : Vector3 :=
  match intersectPlane (ray (roadRaycaster h x y)) (m_plane h) with
  | Some p => p
  | None => Vector3_zero
  end.

(** The helper [addDebugWorldOBBox] draws for a tile that is raycast. *)
Definition redBox (tile : Tile) : DebugObject := DebugOBBox (boundingBox tile).


(** The road phase calls a road picker that does not exist. *)
Definition missesRoadPicker (h : PickHandler) : Prop :=
  enableRoadPicking h = true /\ m_roadPicker h = None /\
  forEachVisibleTile (mapView h) <> [].



Definition emptyMapView : MapView :=
  {| getNormalizedScreenCoordinates := fun x y => {| x3 := x; y3 := y; z3 := 0%Q |};
     raycasterFromScreenPoint := fun x y =>
       {| ray := {| origin := Vector3_zero;
                    direction := {| x3 := x; y3 := y; z3 := (-1)%Q |} |} |};
     textElementsRenderer := None;
     canvas := {| clientWidth := 800%Q; clientHeight := 600%Q |};
     pixelRatio := 1%Q;
     dataSourceTileList :=
       [ {| dataSource := {| name := "background" |};
            renderedTiles := [sampleTile polygonFeature 0%Q] |};
         {| dataSource := {| name := "omv" |}; renderedTiles := [] |} ];
     worldCenter := Vector3_zero;
     camera := {| cameraPosition := Vector3_zero |};
     forEachVisibleTile := [] |}.

Definition emptyHandler : PickHandler :=
  newPickHandler emptyMapView {| cameraPosition := Vector3_zero |} false false.

(** A mesh with one feature ([objInfos] holds one record) and a technique. *)
Definition singleFeature : TileFeatureData :=
  {| geometryType := Some GeometryType.ExtrudedPolygon;
     starts := Some [0];
     objInfos := Some [42];
     boundingVolumes := None |}.

(** * Properties *)

Unset Implicit Arguments.

(** ** The sort *)

Section ArraySortFacts.
Variable A : Type.
Variable key : A -> Q.

Let comparefn (a b : A) : Q := (key a - key b)%Q.
Let key_le (a b : A) : Prop := (key a <= key b)%Q.
Let at_key (d : Q) (a : A) : bool := Qeq_bool (key a) d.

Lemma comparefn_nonpos (a b : A) :
  Qle_bool (comparefn a b) 0 = true <-> (key a <= key b)%Q.
Proof.
  unfold comparefn. rewrite Qle_bool_iff. split; intros Hle; lra.
Qed.

Lemma comparefn_pos (a b : A) :
  Qle_bool (comparefn a b) 0 = false -> (key b <= key a)%Q /\ ~ (key a == key b)%Q.
Proof.
  intros Hf.
  assert (Hn : ~ (key a <= key b)%Q).
  { intros Hle. apply comparefn_nonpos in Hle. congruence. }
  split; [lra | intros Heq; apply Hn; lra].
Qed.

Lemma Array_insert_perm (a : A) (l : list A) :
  Permutation (a :: l) (Array_insert comparefn a l).
Proof.
  induction l as [|b l IH]; simpl.
  - apply Permutation_refl.
  - destruct (Qle_bool (comparefn a b) 0).
    + apply Permutation_refl.
    + eapply perm_trans; [apply perm_swap | apply perm_skip, IH].
Qed.

Lemma Array_sort_perm (l : list A) :
  Permutation l (Array_sort comparefn l).
Proof.
  induction l as [|a l IH]; simpl.
  - apply perm_nil.
  - eapply perm_trans; [apply perm_skip, IH | apply Array_insert_perm].
Qed.

Lemma Array_insert_hd (a b : A) (l : list A) :
  key_le b a -> HdRel key_le b l -> HdRel key_le b (Array_insert comparefn a l).
Proof.
  intros Hba Hhd. destruct l as [|c l]; simpl.
  - constructor. exact Hba.
  - destruct (Qle_bool (comparefn a c) 0); constructor.
    + exact Hba.
    + inversion Hhd; assumption.
Qed.

Lemma Array_insert_sorted (a : A) (l : list A) :
  Sorted key_le l -> Sorted key_le (Array_insert comparefn a l).
Proof.
  induction l as [|b l IH]; simpl; intros Hs.
  - repeat constructor.
  - destruct (Qle_bool (comparefn a b) 0) eqn:Hab.
    + constructor; [exact Hs |]. constructor. apply comparefn_nonpos. exact Hab.
    + inversion Hs as [|? ? Hs' Hhd]; subst.
      constructor; [apply IH, Hs' |].
      apply Array_insert_hd; [| exact Hhd].
      apply comparefn_pos in Hab. apply Hab.
Qed.

Lemma Array_sort_sorted (l : list A) :
  Sorted key_le (Array_sort comparefn l).
Proof.
  induction l as [|a l IH]; simpl.
  - constructor.
  - apply Array_insert_sorted, IH.
Qed.

(** Insertion never moves an element past one of the same key. *)
Lemma Array_insert_filter (d : Q) (a : A) (l : list A) :
  filter (at_key d) (Array_insert comparefn a l) = filter (at_key d) (a :: l).
Proof.
  induction l as [|b l IH]; [reflexivity |].
  cbn [Array_insert]. destruct (Qle_bool (comparefn a b) 0) eqn:Hab; [reflexivity |].
  apply comparefn_pos in Hab. destruct Hab as [_ Hne].
  cbn [filter] in *. rewrite IH.
  destruct (at_key d a) eqn:Ha; [| reflexivity].
  destruct (at_key d b) eqn:Hb; [| reflexivity].
  exfalso. apply Hne. unfold at_key in Ha, Hb.
  apply Qeq_bool_iff in Ha. apply Qeq_bool_iff in Hb. lra.
Qed.

Lemma Array_sort_filter (d : Q) (l : list A) :
  filter (at_key d) (Array_sort comparefn l) = filter (at_key d) l.
Proof.
  induction l as [|a l IH]; [reflexivity |].
  cbn [Array_sort]. rewrite Array_insert_filter. cbn [filter]. rewrite IH. reflexivity.
Qed.

Lemma key_le_trans : Relations_1.Transitive key_le.
Proof. intros a b c Hab Hbc. unfold key_le in *. lra. Qed.

Lemma sorted_head_least (a : A) (l : list A) :
  Sorted key_le (a :: l) -> forall b, In b (a :: l) -> key_le a b.
Proof.
  intros Hs b Hin. apply Sorted_StronglySorted in Hs; [| exact key_le_trans].
  inversion Hs as [|? ? _ Hall]; subst.
  destruct Hin as [<- | Hin].
  - unfold key_le. lra.
  - rewrite Forall_forall in Hall. apply Hall, Hin.
Qed.

Lemma at_key_self (a : A) : at_key (key a) a = true.
Proof. unfold at_key. apply Qeq_bool_iff. reflexivity. Qed.

Lemma filter_head_in (d : Q) (a : A) (l l' : list A) :
  at_key d a = true -> filter (at_key d) (a :: l) = filter (at_key d) l' -> In a l'.
Proof.
  intros Ha Heq. cbn [filter] in Heq. rewrite Ha in Heq.
  assert (Hin : In a (filter (at_key d) l')) by (rewrite <- Heq; left; reflexivity).
  apply filter_In in Hin. apply Hin.
Qed.

(** A list is determined by being sorted and by the order of its elements
    within every key: whatever algorithm the engine runs, a sorted and
    stable rearrangement is the one [Array_sort] computes. *)
Lemma sorted_stable_unique (l1 l2 : list A) :
  Sorted key_le l1 -> Sorted key_le l2 ->
  (forall d, filter (at_key d) l1 = filter (at_key d) l2) ->
  l1 = l2.
Proof.
  revert l2. induction l1 as [|a l1 IH]; intros l2 Hs1 Hs2 Hf.
  - destruct l2 as [|b l2]; [reflexivity |].
    specialize (Hf (key b)). cbn [filter] in Hf. rewrite at_key_self in Hf. discriminate.
  - destruct l2 as [|b l2].
    + specialize (Hf (key a)). cbn [filter] in Hf. rewrite at_key_self in Hf. discriminate.
    + assert (Hab : (key a == key b)%Q).
      { assert (H1 : In a (b :: l2))
          by (eapply filter_head_in; [apply at_key_self | apply Hf]).
        assert (H2 : In b (a :: l1))
          by (eapply filter_head_in; [apply at_key_self | symmetry; apply Hf]).
        pose proof (sorted_head_least _ _ Hs2 _ H1) as Hba.
        pose proof (sorted_head_least _ _ Hs1 _ H2) as Hab'.
        unfold key_le in *. lra. }
      assert (Heq : a = b).
      { specialize (Hf (key a)). cbn [filter] in Hf. rewrite at_key_self in Hf.
        assert (Hb : at_key (key a) b = true)
          by (apply Qeq_bool_iff; symmetry; exact Hab).
        rewrite Hb in Hf. congruence. }
      subst b. f_equal.
      apply IH.
      * inversion Hs1; assumption.
      * inversion Hs2; assumption.
      * intros d. specialize (Hf d). cbn [filter] in Hf.
        destruct (at_key d a); congruence.
Qed.
End ArraySortFacts.

(** ** The scan over [starts] and the binary search *)

Lemma ascending_strongly (ss : list Z) :
  Sorted Z.le ss -> StronglySorted Z.le ss.
Proof.
  apply Sorted_StronglySorted. intros a b c. apply Z.le_trans.
Qed.

Lemma strictly_ascending_ascending (ss : list Z) :
  Sorted Z.lt ss -> Sorted Z.le ss.
Proof.
  induction 1 as [|a l Hs IH Hhd]; constructor; [exact IH |].
  destruct Hhd; constructor. lia.
Qed.

Lemma countLe_cons (a : Z) (ss : list Z) (i : Z) :
  countLe (a :: ss) i = (if a <=? i then 1 else 0) + countLe ss i.
Proof.
  unfold countLe. cbn [filter]. destruct (a <=? i); cbn [List.length]; lia.
Qed.

Lemma countLe_above (ss : list Z) (i : Z) :
  Forall (fun s => i < s) ss -> countLe ss i = 0.
Proof.
  induction 1 as [|a l Ha _ IH]; [reflexivity |].
  rewrite countLe_cons, IH. destruct (Z.leb_spec a i); lia.
Qed.

(** On an ascending list the scan stops after exactly the entries that do
    not exceed the index. *)
Lemma scanStarts_count (ss : list Z) (i k : Z) :
  StronglySorted Z.le ss -> scanStarts ss i k = k + countLe ss i.
Proof.
  intros Hs. revert k. induction Hs as [|a l Hs IH Hall]; intros k.
  - unfold countLe. simpl. lia.
  - cbn [scanStarts]. rewrite countLe_cons.
    destruct (Z.gtb_spec a i) as [Hgt | Hle].
    + rewrite countLe_above.
      * destruct (Z.leb_spec a i); lia.
      * eapply Forall_impl; [| exact Hall]. intros s Has. simpl in Has. lia.
    + rewrite IH. destruct (Z.leb_spec a i); lia.
Qed.

Lemma linearSearch_count (ss : list Z) (i : Z) :
  Sorted Z.le ss -> linearSearch ss i = countLe ss i - 1.
Proof.
  intros Hs. unfold linearSearch.
  rewrite scanStarts_count by (apply ascending_strongly, Hs). lia.
Qed.

Lemma ascending_nth (ss : list Z) :
  StronglySorted Z.le ss ->
  forall i j, (i <= j < List.length ss)%nat -> nth i ss 0 <= nth j ss 0.
Proof.
  induction 1 as [|a l Hs IH Hall]; intros i j Hij; [simpl in Hij; lia |].
  destruct i as [|i], j as [|j]; cbn [nth]; cbn [List.length] in Hij; try lia.
  - rewrite Forall_forall in Hall. apply Hall, nth_In. lia.
  - apply IH. lia.
Qed.

Lemma splitsAt_count (ss : list Z) (t : Z) (r : nat) :
  splitsAt ss t r -> countLe ss t = Z.of_nat r.
Proof.
  revert r. induction ss as [|a ss IH]; intros r (Hr & Hlow & Hhigh).
  - simpl in Hr. assert (r = 0%nat) by lia. subst. reflexivity.
  - rewrite countLe_cons. destruct r as [|r].
    + rewrite countLe_above.
      * specialize (Hhigh 0%nat). cbn in Hhigh.
        destruct (Z.leb_spec a t); [| reflexivity].
        assert (a > t) by (apply Hhigh; lia). lia.
      * apply Forall_forall. intros s Hin.
        destruct (In_nth _ _ 0 Hin) as (j & Hj & <-).
        specialize (Hhigh (S j)). cbn [nth List.length] in Hhigh.
        assert (nth j ss 0 > t) by (apply Hhigh; lia). lia.
    + rewrite (IH r).
      * specialize (Hlow 0%nat). cbn in Hlow.
        destruct (Z.leb_spec a t); [lia |].
        assert (a <= t) by (apply Hlow; lia). lia.
      * cbn [List.length] in Hr. repeat split.
        -- lia.
        -- intros j Hj. apply (Hlow (S j)). lia.
        -- intros j Hj. apply (Hhigh (S j)). cbn [List.length]. lia.
Qed.

Lemma half_between (lo hi : nat) :
  (lo < hi)%nat -> (lo <= (lo + hi) / 2 < hi)%nat.
Proof.
  intros Hlt. split.
  - apply Nat.div_le_lower_bound; lia.
  - apply Nat.Div0.div_lt_upper_bound; lia.
Qed.

(** The binary search ends on the split point of the list. *)
Lemma upperBound_splits (ss : list Z) (t : Z) (lo hi : nat) :
  StronglySorted Z.le ss ->
  (lo <= hi <= List.length ss)%nat ->
  (forall j, (j < lo)%nat -> nth j ss 0 <= t) ->
  (forall j, (hi <= j < List.length ss)%nat -> nth j ss 0 > t) ->
  splitsAt ss t (upperBound ss t lo hi).
Proof.
  intros Hs. funelim (upperBound ss t lo hi); intros Hrange Hlow Hhigh.
  - assert (lo = hi) by lia. subst hi.
    repeat split; [lia | exact Hlow | exact Hhigh].
  - pose proof (half_between _ _ l) as Hmid.
    match goal with IH : StronglySorted _ _ -> _ |- _ => apply IH end;
      [assumption | lia | assumption |].
    intros j Hj.
    match goal with
    | Hgt : nth ?m ?l 0 > _ |- _ =>
        assert (nth m l 0 <= nth j l 0) by (apply ascending_nth; [assumption | lia])
    end.
    lia.
  - pose proof (half_between _ _ l) as Hmid.
    match goal with IH : StronglySorted _ _ -> _ |- _ => apply IH end;
      [assumption | lia | | assumption].
    intros j Hj.
    match goal with
    | Hle : ~ nth ?m ?l 0 > _ |- _ =>
        assert (nth j l 0 <= nth m l 0) by (apply ascending_nth; [assumption | lia])
    end.
    lia.
Qed.

Lemma binarySearch_count (ss : list Z) (t : Z) :
  Sorted Z.le ss -> binarySearch ss t = countLe ss t - 1.
Proof.
  intros Hs. unfold binarySearch.
  rewrite (splitsAt_count ss t (upperBound ss t 0 (List.length ss))); [reflexivity |].
  apply upperBound_splits.
  - apply ascending_strongly, Hs.
  - lia.
  - intros j Hj. lia.
  - intros j Hj. lia.
Qed.

(** ** The feature index resolver *)

Lemma featureOf_userData (intersect : Intersection.t) (fd : TileFeatureData) :
  featureOf intersect = Some fd ->
  exists ud, Object3D.userData (Intersection.object intersect) = Some ud /\
             feature ud = Some fd.
Proof.
  unfold featureOf. destruct (Object3D.userData (Intersection.object intersect)) as [ud|];
    [| discriminate].
  intros Hf. exists ud. split; [reflexivity | exact Hf].
Qed.

(** The resolver on a hit that reaches the scan of [starts]. *)
Lemma resolver_scan (intersect : Intersection.t) (fd : TileFeatureData)
    (ss : list Z) (i : Z) :
  featureOf intersect = Some fd ->
  instanceofMapViewPoints (Intersection.object intersect) = false ->
  starts fd = Some ss ->
  (2 <= List.length ss)%nat ->
  intersectIndex intersect = Some i ->
  getIntersectedFeatureIndex intersect = Normal (Some (linearSearch ss i)).
Proof.
  intros Hf Hnp Hss Hlen Hi.
  destruct (featureOf_userData _ _ Hf) as (ud & Hud & Hfd).
  unfold getIntersectedFeatureIndex. rewrite Hud, Hfd, Hnp, Hss, Hi.
  destruct ss as [|a [|b ss]]; cbn [List.length] in Hlen; try lia.
  reflexivity.
Qed.

(** When every entry of [starts] lies above the index the scan stops at once
    and the resolver's arithmetic yields -1. *)
Lemma linearSearch_below (ss : list Z) (i : Z) :
  ss <> [] -> Forall (fun s => i < s) ss -> linearSearch ss i = -1.
Proof.
  intros Hne Hall. destruct Hall as [|a l Ha _]; [congruence |].
  unfold linearSearch. cbn [scanStarts].
  destruct (Z.gtb_spec a i); lia.
Qed.

Lemma linearSearch_lower (ss : list Z) (i : Z) : -1 <= linearSearch ss i.
Proof.
  unfold linearSearch.
  assert (H : forall k, k <= scanStarts ss i k).
  { induction ss as [|a ss IH]; intros k; cbn [scanStarts]; [lia |].
    destruct (a >? i); [lia |]. specialize (IH (k + 1)). lia. }
  specialize (H 0). lia.
Qed.

Lemma array_get_negative {A} (a : list A) (i : Z) : i < 0 -> array_get a i = None.
Proof.
  intros Hi. unfold array_get. destruct (Z.ltb_spec i 0); [reflexivity | lia].
Qed.

Lemma array_get_in_range {A} (a : list A) (i : Z) :
  0 <= i < Z.of_nat (List.length a) -> exists v, array_get a i = Some v.
Proof.
  intros Hi. unfold array_get. destruct (Z.ltb_spec i 0); [lia |].
  destruct (nth_error a (Z.to_nat i)) as [v|] eqn:Hn; [exists v; reflexivity |].
  apply nth_error_None in Hn. lia.
Qed.

(** C2, as amended: for every strictly ascending [starts] list with at least
    two entries and every hit on an object that is not a point primitive and
    that carries a face index or a vertex index, the feature index resolver
    returns (the number of entries of [starts] that are at most the
    buffer-local index) - 1, where the buffer-local index is [faceIndex * 3]
    when a face index is present and the raw vertex index otherwise.  In
    particular, with [starts = [0, 10, 25]] the buffer-local index 12 gives 1,
    0 gives 0, 30 gives 2 and 10 gives 1. *)
Theorem resolver_counts_starts :
  (forall (intersect : Intersection.t) (fd : TileFeatureData) (ss : list Z) (i : Z),
      featureOf intersect = Some fd ->
      instanceofMapViewPoints (Intersection.object intersect) = false ->
      starts fd = Some ss ->
      Sorted Z.lt ss ->
      (2 <= List.length ss)%nat ->
      intersectIndex intersect = Some i ->
      getIntersectedFeatureIndex intersect = Normal (Some (countLe ss i - 1))) /\
  getIntersectedFeatureIndex (lineHit [0; 10; 25] 12) = Normal (Some 1) /\
  getIntersectedFeatureIndex (lineHit [0; 10; 25] 0) = Normal (Some 0) /\
  getIntersectedFeatureIndex (lineHit [0; 10; 25] 30) = Normal (Some 2) /\
  getIntersectedFeatureIndex (lineHit [0; 10; 25] 10) = Normal (Some 1).
Proof.
  split; [| repeat split].
  intros intersect fd ss i Hf Hnp Hss Hasc Hlen Hi.
  rewrite (resolver_scan intersect fd ss i Hf Hnp Hss Hlen Hi).
  rewrite linearSearch_count by (apply strictly_ascending_ascending, Hasc).
  reflexivity.
Qed.

(** C2 as stated fails on a point primitive: with [starts = [0, 10, 25]] and
    point index 12 the resolver returns 12, not 1. *)
Lemma resolver_counts_starts_not_on_points :
  Sorted Z.lt [0; 10; 25] /\
  (2 <= List.length [0; 10; 25])%nat /\
  featureOf (pointsHit [0; 10; 25] 12) = Some (sampleFeature (Some [0; 10; 25]) None) /\
  intersectIndex (pointsHit [0; 10; 25] 12) = Some 12 /\
  countLe [0; 10; 25] 12 - 1 = 1 /\
  getIntersectedFeatureIndex (pointsHit [0; 10; 25] 12) = Normal (Some 12) /\
  getIntersectedFeatureIndex (pointsHit [0; 10; 25] 12)
    <> Normal (Some (countLe [0; 10; 25] 12 - 1)).
Proof.
  repeat split; try (cbn; lia); try discriminate.
  repeat constructor.
Qed.

(** C3: on every monotonically ascending [starts] list and for every
    buffer-local index, the binary search (first offset greater than the
    index, then one step back) returns what the linear scan of the resolver
    returns. *)
Theorem binarySearch_linearSearch (ss : list Z) (i : Z) :
  Sorted Z.le ss -> binarySearch ss i = linearSearch ss i.
Proof.
  intros Hs. rewrite binarySearch_count, linearSearch_count by exact Hs. reflexivity.
Qed.

(** C7: for every hit on a point primitive ([MapViewPoints]) that has feature
    metadata, the resolver returns the raw point index of the hit, whatever
    [starts] holds. *)
Theorem resolver_point_primitive (intersect : Intersection.t) (fd : TileFeatureData) :
  featureOf intersect = Some fd ->
  instanceofMapViewPoints (Intersection.object intersect) = true ->
  getIntersectedFeatureIndex intersect = Normal (Intersection.index intersect).
Proof.
  intros Hf Hp. destruct (featureOf_userData _ _ Hf) as (ud & Hud & Hfd).
  unfold getIntersectedFeatureIndex. rewrite Hud, Hfd, Hp. reflexivity.
Qed.

(** C8, as amended: for every hit on an object that is not a point primitive,
    that has feature metadata whose [starts] list has exactly one entry and
    that carries a face index or a vertex index, the resolver returns 0,
    whatever the buffer-local index is, an index below the single offset
    included. *)
Theorem resolver_single_start (intersect : Intersection.t) (fd : TileFeatureData)
    (s0 i : Z) :
  featureOf intersect = Some fd ->
  instanceofMapViewPoints (Intersection.object intersect) = false ->
  starts fd = Some [s0] ->
  intersectIndex intersect = Some i ->
  getIntersectedFeatureIndex intersect = Normal (Some 0).
Proof.
  intros Hf Hnp Hss Hi. destruct (featureOf_userData _ _ Hf) as (ud & Hud & Hfd).
  unfold getIntersectedFeatureIndex. rewrite Hud, Hfd, Hnp, Hss, Hi. reflexivity.
Qed.

(** C8 as stated fails in two ways: on a point primitive with
    [starts = [0]] and point index 5 the resolver returns 5, and on a hit
    that carries neither index it returns [undefined]. *)
Lemma resolver_single_start_needs_guards :
  featureOf (pointsHit [0] 5) = Some (sampleFeature (Some [0]) None) /\
  getIntersectedFeatureIndex (pointsHit [0] 5) = Normal (Some 5) /\
  getIntersectedFeatureIndex (pointsHit [0] 5) <> Normal (Some 0) /\
  getIntersectedFeatureIndex
    (sampleHit (sampleObject OtherObject (Some (sampleFeature (Some [0]) None))) None None)
    = Normal None.
Proof.
  repeat split; discriminate.
Qed.

(** ** From an intersection to a pick result *)

Section PickIntersect.
Context {T : Toolkit}.

Lemma resolver_normal (intersect : Intersection.t) (fd : TileFeatureData) :
  featureOf intersect = Some fd ->
  exists r, getIntersectedFeatureIndex intersect = Normal r.
Proof.
  intros Hf. destruct (featureOf_userData _ _ Hf) as (ud & Hud & Hfd).
  unfold getIntersectedFeatureIndex. rewrite Hud, Hfd.
  destruct (instanceofMapViewPoints _); [eexists; reflexivity |].
  destruct (starts fd) as [ss|]; [| eexists; reflexivity].
  destruct (Nat.eqb (List.length ss) 0); [eexists; reflexivity |].
  destruct (intersectIndex intersect); [| eexists; reflexivity].
  destruct (Nat.eqb (List.length ss) 1); eexists; reflexivity.
Qed.

(** The debug helpers of a hit are built without error unless the resolved
    feature index is negative. *)
Lemma addDebugIntersect_normal (intersect : Intersection.t) (fd : TileFeatureData)
    (r : option Z) (group : list DebugObject) :
  featureOf intersect = Some fd ->
  getIntersectedFeatureIndex intersect = Normal r ->
  (forall i, r = Some i -> 0 <= i) ->
  exists group', addDebugIntersect intersect group = Normal group'.
Proof.
  intros Hf Hr Hpos. destruct (featureOf_userData _ _ Hf) as (ud & Hud & Hfd).
  unfold addDebugIntersect.
  destruct (negb (instanceofMesh _)); [eexists; reflexivity |].
  rewrite Hr. cbn [bind]. rewrite Hud, Hfd.
  destruct (boundingVolumes fd) as [volumes|]; [| eexists; reflexivity].
  set (featureIndex := match r with Some i => i | None => 0 end).
  assert (Hfi : 0 <= featureIndex).
  { subst featureIndex. destruct r as [i|]; [apply Hpos; reflexivity | lia]. }
  destruct (Z.gtb_spec (Z.of_nat (List.length volumes)) featureIndex) as [Hgt | Hle];
    [| eexists; reflexivity].
  destruct (array_get_in_range volumes featureIndex) as (sphere & Hs); [lia |].
  rewrite Hs. eexists. reflexivity.
Qed.

(** A hit without feature metadata is pushed as it is. *)
Lemma pickIntersect_plain (enablePickTechnique : bool) (intersect : Intersection.t)
    (group : list DebugObject) :
  featureOf intersect = None ->
  pickIntersect enablePickTechnique intersect group
    = Normal (initialPickResult intersect, group).
Proof.
  intros Hf. unfold pickIntersect. rewrite Hf. reflexivity.
Qed.

(** What an emitted pick result is made of: the steps after [addObjInfo]
    set [featureId] and [type] and leave the other fields alone. *)
Lemma pickIntersect_inv (enablePickTechnique : bool) (intersect : Intersection.t)
    (fd : TileFeatureData) (group group' : list DebugObject) (r : PickResult.t) :
  featureOf intersect = Some fd ->
  pickIntersect enablePickTechnique intersect group = Normal (r, group') ->
  exists r0,
    addDebugIntersect intersect group = Normal group' /\
    addObjInfo fd intersect
      (if enablePickTechnique
       then PickResult.set_technique (initialPickResult intersect) (techniqueOf intersect)
       else initialPickResult intersect) = Normal r0 /\
    PickResult.type r = pickObjectTypeOf (geometryType fd) /\
    PickResult.userData r = PickResult.userData r0 /\
    PickResult.distance r = Intersection.distance intersect /\
    PickResult.intersection r = Some intersect.
Proof.
  intros Hf. unfold pickIntersect. rewrite Hf.
  destruct (addDebugIntersect intersect group) as [g|e]; cbn [bind]; [| discriminate].
  destruct (addObjInfo fd intersect _) as [r0|e] eqn:Hobj; cbn [bind]; [| discriminate].
  intros Heq. injection Heq as <- <-. exists r0.
  assert (Hkeep : PickResult.distance r0 = Intersection.distance intersect /\
                  PickResult.intersection r0 = Some intersect).
  { unfold addObjInfo in Hobj.
    destruct (objInfos fd); [| injection Hobj as <-; destruct enablePickTechnique; split; reflexivity].
    destruct (getIntersectedFeatureIndex intersect) as [[i|]|]; cbn [bind] in Hobj;
      try discriminate; injection Hobj as <-; destruct enablePickTechnique; split; reflexivity. }
  destruct Hkeep as [Hd Hi].
  repeat split; try reflexivity; destruct (objInfos fd); cbn; first [reflexivity | assumption].
Qed.

Lemma addObjInfo_unresolved (fd : TileFeatureData) (intersect : Intersection.t)
    (pickResult : PickResult.t) :
  getIntersectedFeatureIndex intersect = Normal None ->
  addObjInfo fd intersect pickResult = Normal pickResult.
Proof.
  intros Hr. unfold addObjInfo. rewrite Hr. destruct (objInfos fd); reflexivity.
Qed.

Lemma initial_userData (enablePickTechnique : bool) (intersect : Intersection.t) :
  PickResult.userData
    (if enablePickTechnique
     then PickResult.set_technique (initialPickResult intersect) (techniqueOf intersect)
     else initialPickResult intersect) = None.
Proof. destruct enablePickTechnique; reflexivity. Qed.

(** The loop body completes when the debug helpers do. *)
Lemma pickIntersect_normal (enablePickTechnique : bool) (intersect : Intersection.t)
    (fd : TileFeatureData) (group group' : list DebugObject) :
  featureOf intersect = Some fd ->
  addDebugIntersect intersect group = Normal group' ->
  exists r, pickIntersect enablePickTechnique intersect group = Normal (r, group').
Proof.
  intros Hf Hdbg. unfold pickIntersect. rewrite Hf, Hdbg. cbn [bind].
  destruct (resolver_normal _ _ Hf) as (res & Hres).
  unfold addObjInfo. rewrite Hres.
  destruct (objInfos fd); [destruct res |]; cbn [bind]; eexists; reflexivity.
Qed.

(** C4: for every geometry hit whose feature metadata is absent, or whose
    object is not a point primitive and whose [starts] is undefined or
    empty or which carries neither a face index nor a vertex index, the
    feature index resolver returns [undefined] and the pick result emitted
    for the hit has no [userData].  (When [userData] itself is [undefined]
    the query emits the result without calling the resolver.) *)
Theorem unresolved_hit_has_no_userData (intersect : Intersection.t) :
  (featureOf intersect = None \/
   (instanceofMapViewPoints (Intersection.object intersect) = false /\
    exists fd, featureOf intersect = Some fd /\
      (starts fd = None \/ starts fd = Some [] \/
       (Intersection.faceIndex intersect = None /\
        Intersection.index intersect = None)))) ->
  (Object3D.userData (Intersection.object intersect) <> None ->
   getIntersectedFeatureIndex intersect = Normal None) /\
  forall (enablePickTechnique : bool) (group : list DebugObject),
    exists r group',
      pickIntersect enablePickTechnique intersect group = Normal (r, group') /\
      PickResult.userData r = None.
Proof.
  intros [Hnone | (Hnp & fd & Hf & Hcase)].
  - split.
    + intros Hud. unfold getIntersectedFeatureIndex. unfold featureOf in Hnone.
      destruct (Object3D.userData (Intersection.object intersect)) as [ud|];
        [| congruence].
      rewrite Hnone. reflexivity.
    + intros tech group. exists (initialPickResult intersect), group.
      split; [apply pickIntersect_plain, Hnone | reflexivity].
  - assert (Hres : getIntersectedFeatureIndex intersect = Normal None).
    { destruct (featureOf_userData _ _ Hf) as (ud & Hud & Hfd).
      unfold getIntersectedFeatureIndex. rewrite Hud, Hfd, Hnp.
      destruct Hcase as [Hs | [Hs | [Hface Hidx]]].
      - rewrite Hs. reflexivity.
      - rewrite Hs. reflexivity.
      - destruct (starts fd) as [ss|]; [| reflexivity].
        destruct (Nat.eqb (List.length ss) 0); [reflexivity |].
        unfold intersectIndex. rewrite Hface, Hidx. reflexivity. }
    split; [intros _; exact Hres |].
    intros tech group.
    destruct (addDebugIntersect_normal intersect fd None group Hf Hres) as (group' & Hdbg);
      [intros i Hi; discriminate |].
    destruct (pickIntersect_normal tech _ _ _ _ Hf Hdbg) as (r & Hr).
    exists r, group'. split; [exact Hr |].
    destruct (pickIntersect_inv _ _ _ _ _ _ Hf Hr) as (r0 & _ & Hobj & _ & Hud & _).
    rewrite addObjInfo_unresolved in Hobj by exact Hres.
    injection Hobj as <-. rewrite Hud. apply initial_userData.
Qed.

(** C5: the pick category of every geometry hit with feature metadata is
    the value of a fixed table at the metadata's geometry type: Point and
    Text give Point; Line, ExtrudedLine, SolidLine and TextPath give Line;
    Polygon and ExtrudedPolygon give Area; Object3D gives Object3D; every
    other geometry type, and an absent one, gives Unspecified.  A polygon
    hit therefore yields Area and never Line. *)
Theorem pick_category_table :
  (forall (enablePickTechnique : bool) (intersect : Intersection.t)
          (fd : TileFeatureData) (group group' : list DebugObject) (r : PickResult.t),
      featureOf intersect = Some fd ->
      pickIntersect enablePickTechnique intersect group = Normal (r, group') ->
      PickResult.type r = pickObjectTypeOf (geometryType fd)) /\
  pickObjectTypeOf (Some GeometryType.Point) = PickObjectType.Point /\
  pickObjectTypeOf (Some GeometryType.Text) = PickObjectType.Point /\
  pickObjectTypeOf (Some GeometryType.Line) = PickObjectType.Line /\
  pickObjectTypeOf (Some GeometryType.ExtrudedLine) = PickObjectType.Line /\
  pickObjectTypeOf (Some GeometryType.SolidLine) = PickObjectType.Line /\
  pickObjectTypeOf (Some GeometryType.TextPath) = PickObjectType.Line /\
  pickObjectTypeOf (Some GeometryType.Polygon) = PickObjectType.Area /\
  pickObjectTypeOf (Some GeometryType.ExtrudedPolygon) = PickObjectType.Area /\
  pickObjectTypeOf (Some GeometryType.Object3D) = PickObjectType.Object3D /\
  (forall tag, pickObjectTypeOf (Some (GeometryType.Unlisted tag))
               = PickObjectType.Unspecified) /\
  pickObjectTypeOf None = PickObjectType.Unspecified /\
  pickObjectTypeOf (Some GeometryType.Polygon) <> PickObjectType.Line.
Proof.
  split; [| repeat split; discriminate].
  intros tech intersect fd group group' r Hf Hr.
  destruct (pickIntersect_inv _ _ _ _ _ _ Hf Hr) as (r0 & _ & _ & Hty & _). exact Hty.
Qed.
End PickIntersect.

(** ** The query *)

Section Query.
Context {T : Toolkit}.

Lemma OrientedBox3_copy_other (self other : OrientedBox3) :
  OrientedBox3_copy self other = other.
Proof. destruct other. reflexivity. Qed.

(** *** The broad phase does not read the state *)

Lemma cullTile_view (mv : MapView) (rc : Raycaster) (acc1 acc2 : BroadPhase)
    (tile : Tile) :
  intersects acc1 = intersects acc2 ->
  raycastTiles acc1 = raycastTiles acc2 ->
  intersects (cullTile mv rc acc1 tile) = intersects (cullTile mv rc acc2 tile) /\
  raycastTiles (cullTile mv rc acc1 tile) = raycastTiles (cullTile mv rc acc2 tile).
Proof.
  intros Hi Hr. unfold cullTile. rewrite !OrientedBox3_copy_other.
  destruct (intersectsRay _ _); cbn; rewrite Hi, Hr; split; reflexivity.
Qed.

Lemma cullTiles_view (mv : MapView) (rc : Raycaster) (tiles : list Tile) :
  forall acc1 acc2,
    intersects acc1 = intersects acc2 ->
    raycastTiles acc1 = raycastTiles acc2 ->
    intersects (fold_left (cullTile mv rc) tiles acc1)
      = intersects (fold_left (cullTile mv rc) tiles acc2) /\
    raycastTiles (fold_left (cullTile mv rc) tiles acc1)
      = raycastTiles (fold_left (cullTile mv rc) tiles acc2).
Proof.
  induction tiles as [|tile tiles IH]; intros acc1 acc2 Hi Hr; cbn [fold_left].
  - split; assumption.
  - destruct (cullTile_view mv rc acc1 acc2 tile Hi Hr) as [Hi' Hr'].
    apply IH; assumption.
Qed.

Lemma cullDataSources_view (mv : MapView) (rc : Raycaster)
    (entries : list DataSourceTileList) :
  forall acc1 acc2,
    intersects acc1 = intersects acc2 ->
    raycastTiles acc1 = raycastTiles acc2 ->
    intersects (fold_left (cullDataSource mv rc) entries acc1)
      = intersects (fold_left (cullDataSource mv rc) entries acc2) /\
    raycastTiles (fold_left (cullDataSource mv rc) entries acc1)
      = raycastTiles (fold_left (cullDataSource mv rc) entries acc2).
Proof.
  induction entries as [|entry entries IH]; intros acc1 acc2 Hi Hr; cbn [fold_left].
  - split; assumption.
  - apply IH; unfold cullDataSource;
      destruct (isSkippedDataSource (dataSource entry)); try assumption;
      apply cullTiles_view; assumption.
Qed.

Lemma broadPhase_view (h : PickHandler) (x y : Q) (s1 s2 : PickState) :
  intersects (broadPhase h x y s1) = intersects (broadPhase h x y s2) /\
  raycastTiles (broadPhase h x y s1) = raycastTiles (broadPhase h x y s2).
Proof.
  unfold broadPhase. apply cullDataSources_view; reflexivity.
Qed.

(** *** No tile in the way of the ray *)

Lemma cullTile_miss (mv : MapView) (rc : Raycaster) (acc : BroadPhase) (tile : Tile) :
  intersectsRay (cullBox mv tile) (ray rc) = None ->
  intersects (cullTile mv rc acc tile) = intersects acc /\
  raycastTiles (cullTile mv rc acc tile) = raycastTiles acc.
Proof.
  intros Hmiss. unfold cullTile. rewrite OrientedBox3_copy_other.
  unfold cullBox in Hmiss. rewrite Hmiss. split; reflexivity.
Qed.

Lemma cullTiles_miss (mv : MapView) (rc : Raycaster) (tiles : list Tile) :
  (forall tile, In tile tiles -> intersectsRay (cullBox mv tile) (ray rc) = None) ->
  forall acc,
    intersects (fold_left (cullTile mv rc) tiles acc) = intersects acc /\
    raycastTiles (fold_left (cullTile mv rc) tiles acc) = raycastTiles acc.
Proof.
  induction tiles as [|tile tiles IH]; intros Hmiss acc; cbn [fold_left].
  - split; reflexivity.
  - destruct (IH (fun t Ht => Hmiss t (or_intror Ht)) (cullTile mv rc acc tile))
      as [Hi Hr].
    destruct (cullTile_miss mv rc acc tile (Hmiss tile (or_introl eq_refl)))
      as [Hi' Hr'].
    split; congruence.
Qed.

Lemma cullDataSources_miss (mv : MapView) (rc : Raycaster)
    (entries : list DataSourceTileList) :
  (forall entry, In entry entries ->
     isSkippedDataSource (dataSource entry) = false ->
     forall tile, In tile (renderedTiles entry) ->
       intersectsRay (cullBox mv tile) (ray rc) = None) ->
  forall acc,
    intersects (fold_left (cullDataSource mv rc) entries acc) = intersects acc /\
    raycastTiles (fold_left (cullDataSource mv rc) entries acc) = raycastTiles acc.
Proof.
  induction entries as [|entry entries IH]; intros Hmiss acc; cbn [fold_left].
  - split; reflexivity.
  - destruct (IH (fun e He => Hmiss e (or_intror He)) (cullDataSource mv rc acc entry))
      as [Hi Hr].
    rewrite Hi, Hr. unfold cullDataSource.
    destruct (isSkippedDataSource (dataSource entry)) eqn:Hskip; [split; reflexivity |].
    apply cullTiles_miss. apply (Hmiss entry (or_introl eq_refl) Hskip).
Qed.

(** *** The loop over [intersects] does not read the debug group *)

Lemma addDebugIntersect_outcome (intersect : Intersection.t)
    (g1 g2 : list DebugObject) :
  match addDebugIntersect intersect g1, addDebugIntersect intersect g2 with
  | Normal _, Normal _ => True
  | Throw e1, Throw e2 => e1 = e2
  | _, _ => False
  end.
Proof.
  unfold addDebugIntersect.
  destruct (negb (instanceofMesh _)); [exact I |].
  destruct (getIntersectedFeatureIndex intersect) as [r|e]; cbn [bind]; [| reflexivity].
  destruct (Object3D.userData _) as [ud|]; [| reflexivity].
  destruct (feature ud) as [fd|]; [| reflexivity].
  destruct (boundingVolumes fd) as [volumes|]; [| exact I].
  destruct (_ >? _); [| exact I].
  unfold addDebugBSphere. destruct (array_get _ _); [exact I | reflexivity].
Qed.

Lemma pickIntersect_returned (enablePickTechnique : bool) (intersect : Intersection.t)
    (g1 g2 : list DebugObject) :
  returned (pickIntersect enablePickTechnique intersect g1)
    = returned (pickIntersect enablePickTechnique intersect g2).
Proof.
  unfold pickIntersect. destruct (featureOf intersect) as [fd|]; [| reflexivity].
  pose proof (addDebugIntersect_outcome intersect g1 g2) as Hdbg.
  destruct (addDebugIntersect intersect g1) as [g1'|e1],
           (addDebugIntersect intersect g2) as [g2'|e2];
    cbn [bind]; try contradiction; [| subst; reflexivity].
  destruct (addObjInfo fd intersect _) as [r|e]; reflexivity.
Qed.

Lemma pickIntersects_returned (enablePickTechnique : bool)
    (hits : list Intersection.t) :
  forall g1 g2,
    returned (pickIntersects enablePickTechnique hits g1)
      = returned (pickIntersects enablePickTechnique hits g2).
Proof.
  induction hits as [|intersect hits IH]; intros g1 g2; [reflexivity |].
  cbn [pickIntersects].
  pose proof (pickIntersect_returned enablePickTechnique intersect g1 g2) as Hstep.
  destruct (pickIntersect enablePickTechnique intersect g1) as [[r1 g1']|e1],
           (pickIntersect enablePickTechnique intersect g2) as [[r2 g2']|e2];
    cbn [bind returned] in *; try discriminate; [| congruence].
  injection Hstep as <-. cbn [fst snd].
  specialize (IH g1' g2').
  destruct (pickIntersects enablePickTechnique hits g1') as [[l1 h1]|f1],
           (pickIntersects enablePickTechnique hits g2') as [[l2 h2]|f2];
    cbn [bind returned fst snd] in *; congruence.
Qed.

(** *** The shape of the returned array *)

Lemma intersectMapObjects_returned (h : PickHandler) (x y : Q) (s : PickState) :
  returned (intersectMapObjects h x y s)
    = (geometry <- returned (geometryHits h x y s) ;;
       roads <- roadHits h x y ;;
       Normal (Array_sort byDistance (labelHits h x y ++ geometry ++ roads))).
Proof.
  unfold intersectMapObjects, geometryHits.
  destruct (pickIntersects _ _ _) as [[geometry group]|e]; cbn [bind returned];
    [| reflexivity].
  destruct (roadHits h x y) as [roads|e]; reflexivity.
Qed.

Lemma geometryHits_returned (h : PickHandler) (x y : Q) (s1 s2 : PickState) :
  returned (geometryHits h x y s1) = returned (geometryHits h x y s2).
Proof.
  unfold geometryHits.
  match goal with
  | |- returned (pickIntersects _ (intersects (broadPhase _ _ _ ?c1)) _)
       = returned (pickIntersects _ (intersects (broadPhase _ _ _ ?c2)) _) =>
      destruct (broadPhase_view h x y c1 c2) as [-> _]
  end.
  apply pickIntersects_returned.
Qed.
End Query.

Section QueryClaims.
Context {T : Toolkit}.

Lemma intersectMapObjects_inv (h : PickHandler) (x y : Q) (s s' : PickState)
    (results : list PickResult.t) :
  intersectMapObjects h x y s = Normal (results, s') ->
  exists geometry group roads,
    geometryHits h x y s = Normal (geometry, group) /\
    roadHits h x y = Normal roads /\
    results = Array_sort byDistance (labelHits h x y ++ geometry ++ roads).
Proof.
  unfold intersectMapObjects, geometryHits.
  destruct (pickIntersects _ _ _) as [[geometry group]|e]; cbn [bind]; [| discriminate].
  destruct (roadHits h x y) as [roads|e]; cbn [bind]; [| discriminate].
  intros Heq. injection Heq as <- _.
  exists geometry, group, roads. repeat split.
Qed.

Lemma Sorted_adjacent {A} (R : A -> A -> Prop) (l : list A) :
  Sorted R l ->
  forall i a b, nth_error l i = Some a -> nth_error l (S i) = Some b -> R a b.
Proof.
  induction 1 as [|c l Hs IH Hhd]; intros i a b Ha Hb.
  - destruct i; discriminate.
  - destruct i as [|i]; cbn [nth_error] in Ha, Hb.
    + injection Ha as <-. destruct l as [|d l]; [discriminate |].
      injection Hb as <-. inversion Hhd. assumption.
    + apply (IH i); assumption.
Qed.

(** C1: the list a query returns is sorted ascending by distance (every
    adjacent pair satisfies [result[i].distance <= result[i+1].distance]),
    it holds exactly the label hits, the geometry hits and the road hits,
    and the results of any one distance keep their insertion order: the
    label hits, then the geometry hits, then the road hits. *)
Theorem intersectMapObjects_sorted_stable (h : PickHandler) (x y : Q)
    (s s' : PickState) (results : list PickResult.t) :
  intersectMapObjects h x y s = Normal (results, s') ->
  (forall i a b,
      nth_error results i = Some a -> nth_error results (S i) = Some b ->
      (PickResult.distance a <= PickResult.distance b)%Q) /\
  exists geometry group roads,
    geometryHits h x y s = Normal (geometry, group) /\
    roadHits h x y = Normal roads /\
    Permutation (labelHits h x y ++ geometry ++ roads) results /\
    forall d,
      filter (atDistance d) results
        = filter (atDistance d) (labelHits h x y)
            ++ filter (atDistance d) geometry
            ++ filter (atDistance d) roads.
Proof.
  intros Hq.
  destruct (intersectMapObjects_inv h x y s s' results Hq)
    as (geometry & group & roads & Hg & Hr & ->).
  split.
  { intros i a b. apply (Sorted_adjacent distance_le).
    apply (Array_sort_sorted PickResult.t PickResult.distance). }
  exists geometry, group, roads. repeat split; try assumption.
  - apply (Array_sort_perm PickResult.t PickResult.distance).
  - intros d.
    rewrite <- !filter_app.
    apply (Array_sort_filter PickResult.t PickResult.distance).
Qed.

Lemma isSkippedDataSource_named (d : DataSource) :
  isSkippedDataSource d = false ->
  name d <> "Terrain"%string /\ name d <> "background"%string.
Proof.
  unfold isSkippedDataSource. intros Hs. apply orb_false_iff in Hs.
  destruct Hs as [Ht Hb]. split; apply String.eqb_neq; assumption.
Qed.

(** C6: if the pick ray intersects the bounding box of no rendered tile of
    any data source other than "Terrain" and "background", the query hands
    no tile to the raycaster, collects no intersection, and returns the
    sorted label and road hits alone: no geometry hit is among them.  The
    tiles of "Terrain" and "background" are skipped whatever the ray does. *)
Theorem missed_tiles_yield_no_geometry (h : PickHandler) (x y : Q) (s : PickState) :
  (forall entry, In entry (dataSourceTileList (mapView h)) ->
     name (dataSource entry) <> "Terrain"%string ->
     name (dataSource entry) <> "background"%string ->
     forall tile, In tile (renderedTiles entry) ->
       intersectsRay (cullBox (mapView h) tile)
                     (ray (raycasterFromScreenPoint (mapView h) x y)) = None) ->
  (forall entry acc,
      name (dataSource entry) = "Terrain"%string \/
      name (dataSource entry) = "background"%string ->
      cullDataSource (mapView h) (raycasterFromScreenPoint (mapView h) x y) acc entry
        = acc) /\
  raycastTiles (broadPhase h x y s) = [] /\
  intersects (broadPhase h x y s) = [] /\
  returned (geometryHits h x y s) = Normal [] /\
  returned (intersectMapObjects h x y s)
    = (roads <- roadHits h x y ;;
       Normal (Array_sort byDistance (labelHits h x y ++ roads))).
Proof.
  intros Hmiss.
  split.
  { intros entry acc Hname. unfold cullDataSource, isSkippedDataSource.
    destruct Hname as [-> | ->]; reflexivity. }
  assert (Hbroad : forall st, intersects (broadPhase h x y st) = [] /\
                              raycastTiles (broadPhase h x y st) = []).
  { intros st. unfold broadPhase.
    apply (cullDataSources_miss (mapView h) _ (dataSourceTileList (mapView h))).
    intros entry Hin Hskip tile Htile.
    destruct (isSkippedDataSource_named _ Hskip) as [Ht Hb].
    apply (Hmiss entry Hin Ht Hb tile Htile). }
  assert (Hgeo : returned (geometryHits h x y s) = Normal []).
  { unfold geometryHits. rewrite (proj1 (Hbroad _)). reflexivity. }
  repeat split; try apply Hbroad; [exact Hgeo |].
  rewrite intersectMapObjects_returned, Hgeo. reflexivity.
Qed.

(** C9: the list a query returns does not depend on the state earlier
    queries left behind (the children of the debug group, the scratch box
    [tmpOBB], the update requests): with the same handler, scene and screen
    coordinates every state gives the same outcome, and a query repeated
    right after a first one returns the same ordered list. *)
Theorem intersectMapObjects_deterministic (h : PickHandler) (x y : Q) :
  (forall s1 s2,
      returned (intersectMapObjects h x y s1)
        = returned (intersectMapObjects h x y s2)) /\
  (forall s s1 results,
      intersectMapObjects h x y s = Normal (results, s1) ->
      exists s2, intersectMapObjects h x y s1 = Normal (results, s2)).
Proof.
  assert (Hret : forall s1 s2,
             returned (intersectMapObjects h x y s1)
               = returned (intersectMapObjects h x y s2)).
  { intros s1 s2. rewrite !intersectMapObjects_returned.
    rewrite (geometryHits_returned h x y s1 s2). reflexivity. }
  split; [exact Hret |].
  intros s s1 results Hq. specialize (Hret s1 s). rewrite Hq in Hret.
  destruct (intersectMapObjects h x y s1) as [[results' s2]|e];
    cbn [returned] in Hret; [| discriminate].
  injection Hret as ->. exists s2. reflexivity.
Qed.
End QueryClaims.

(** ** A hit below the first entry of [starts] *)

Section BelowFirstStart.
Context {T : Toolkit}.
Variables (intersect : Intersection.t) (fd : TileFeatureData) (ss : list Z) (i : Z).
Hypothesis Hfeature : featureOf intersect = Some fd.
Hypothesis Hnotpoints : instanceofMapViewPoints (Intersection.object intersect) = false.
Hypothesis Hstarts : starts fd = Some ss.
Hypothesis Hlength : (2 <= List.length ss)%nat.
Hypothesis Hindex : intersectIndex intersect = Some i.
Hypothesis Hbelow : Forall (fun s => i < s) ss.

(** The resolver returns -1, not [undefined]; the lookup of [objInfos] at
    -1 finds no record, and [addObjInfo] leaves the pick result without
    [userData]. *)
Lemma resolver_below_first_start :
  getIntersectedFeatureIndex intersect = Normal (Some (-1)) /\
  (forall infos : list ObjInfo, array_get infos (-1) = None) /\
  forall enablePickTechnique : bool,
    exists r,
      addObjInfo fd intersect
        (if enablePickTechnique
         then PickResult.set_technique (initialPickResult intersect) (techniqueOf intersect)
         else initialPickResult intersect) = Normal r /\
      PickResult.userData r = None.
Proof.
  assert (Hres : getIntersectedFeatureIndex intersect = Normal (Some (-1))).
  { rewrite (resolver_scan intersect fd ss i Hfeature Hnotpoints Hstarts Hlength Hindex).
    rewrite linearSearch_below; [reflexivity | | exact Hbelow].
    intros ->. cbn in Hlength. lia. }
  split; [exact Hres |]. split; [intros infos; apply array_get_negative; lia |].
  intros tech. unfold addObjInfo. rewrite Hres. cbn [bind].
  destruct (objInfos fd) as [infos|].
  - eexists. split; reflexivity.
  - eexists. split; [reflexivity |]. apply initial_userData.
Qed.

(** On a mesh whose metadata carries bounding volumes the debug helpers
    read [boundingVolumes[-1]] and the loop body throws; on every other
    object it emits a pick result without [userData]. *)
Lemma pickIntersect_below_first_start (enablePickTechnique : bool)
    (group : list DebugObject) :
  (instanceofMesh (Intersection.object intersect) = true ->
   boundingVolumes fd <> None ->
   pickIntersect enablePickTechnique intersect group = Throw TypeError) /\
  (instanceofMesh (Intersection.object intersect) = false \/ boundingVolumes fd = None ->
   exists r group',
     pickIntersect enablePickTechnique intersect group = Normal (r, group') /\
     PickResult.userData r = None).
Proof.
  destruct resolver_below_first_start as (Hres & _ & Hobj).
  destruct (featureOf_userData _ _ Hfeature) as (ud & Hud & Hfd).
  split.
  - intros Hmesh Hvol. unfold pickIntersect. rewrite Hfeature.
    unfold addDebugIntersect. rewrite Hmesh, Hres. cbn [negb bind]. rewrite Hud, Hfd.
    destruct (boundingVolumes fd) as [volumes|]; [| congruence].
    destruct (Z.gtb_spec (Z.of_nat (List.length volumes)) (-1)); [| lia].
    rewrite array_get_negative by lia. reflexivity.
  - intros Hsafe.
    assert (Hdbg : exists group', addDebugIntersect intersect group = Normal group').
    { unfold addDebugIntersect.
      destruct (instanceofMesh (Intersection.object intersect));
        [| eexists; reflexivity].
      destruct Hsafe as [Hm | Hv]; [discriminate |].
      rewrite Hres. cbn [negb bind]. rewrite Hud, Hfd, Hv. eexists. reflexivity. }
    destruct Hdbg as (group' & Hdbg).
    destruct (pickIntersect_normal enablePickTechnique _ _ _ _ Hfeature Hdbg) as (r & Hr).
    exists r, group'. split; [exact Hr |].
    destruct (pickIntersect_inv _ _ _ _ _ _ Hfeature Hr) as (r0 & _ & Hr0 & _ & Hud' & _).
    destruct (Hobj enablePickTechnique) as (r1 & Hr1 & Hnone).
    rewrite Hr1 in Hr0. injection Hr0 as <-. congruence.
Qed.
End BelowFirstStart.

(** C10, failing input: the sample raycaster hits the mesh of [lateTiles] on
    face 4, so the buffer-local index 12 lies below both entries of
    [starts = [15, 20]].  The resolver returns -1, [addObjInfo] alone would
    leave the result without [userData], but [addDebugIntersect] reads
    [boundingVolumes[-1]] and the query ends in a [TypeError]. *)
Theorem intersectMapObjects_throws_below_first_start :
  intersects (broadPhase (sampleHandler lateTiles) 0%Q 0%Q sampleState) = [lateHit] /\
  intersectIndex lateHit = Some 12 /\
  getIntersectedFeatureIndex lateHit = Normal (Some (-1)) /\
  addObjInfo lateFeature lateHit (initialPickResult lateHit)
    = Normal (initialPickResult lateHit) /\
  addDebugIntersect lateHit [] = Throw TypeError /\
  intersectMapObjects (sampleHandler lateTiles) 0%Q 0%Q sampleState = Throw TypeError.
Proof.
  repeat split; vm_compute; reflexivity.
Qed.

(** ** When a query completes *)

Lemma scanStarts_upper (ss : list Z) (i k : Z) :
  scanStarts ss i k <= k + Z.of_nat (List.length ss).
Proof.
  revert k. induction ss as [|a ss IH]; intros k; cbn [scanStarts List.length]; [lia |].
  destruct (a >? i); [lia |]. specialize (IH (k + 1)). lia.
Qed.

(** Off the point primitives the resolver yields [undefined], or an index of
    [starts], or -1. *)
Lemma resolver_range (intersect : Intersection.t) (fd : TileFeatureData) (k : Z) :
  featureOf intersect = Some fd ->
  instanceofMapViewPoints (Intersection.object intersect) = false ->
  getIntersectedFeatureIndex intersect = Normal (Some k) ->
  exists ss, starts fd = Some ss /\ -1 <= k < Z.of_nat (List.length ss).
Proof.
  intros Hf Hnp. destruct (featureOf_userData _ _ Hf) as (ud & Hud & Hfd).
  unfold getIntersectedFeatureIndex. rewrite Hud, Hfd, Hnp.
  destruct (starts fd) as [ss|]; [| discriminate].
  destruct (Nat.eqb_spec (List.length ss) 0) as [H0 | H0]; [discriminate |].
  destruct (intersectIndex intersect) as [i|]; [| discriminate].
  destruct (Nat.eqb_spec (List.length ss) 1) as [H1 | H1]; intros Heq;
    injection Heq as <-; exists ss; (split; [reflexivity |]).
  - lia.
  - pose proof (linearSearch_lower ss i). pose proof (scanStarts_upper ss i 0).
    unfold linearSearch in *. lia.
Qed.

Lemma mesh_not_points (o : Object3D.t) :
  instanceofMesh o = true -> instanceofMapViewPoints o = false.
Proof.
  unfold instanceofMesh, instanceofMapViewPoints.
  destruct (Object3D.class o); [discriminate | reflexivity | discriminate].
Qed.

Section Completion.
Context {T : Toolkit}.

Lemma pickIntersect_harmless (enablePickTechnique : bool) (intersect : Intersection.t)
    (group : list DebugObject) :
  harmless intersect ->
  exists r group', pickIntersect enablePickTechnique intersect group = Normal (r, group').
Proof.
  intros Hh. destruct (featureOf intersect) as [fd|] eqn:Hf.
  - destruct (resolver_normal _ _ Hf) as (res & Hres).
    assert (Hdbg : exists group', addDebugIntersect intersect group = Normal group').
    { destruct (instanceofMesh (Intersection.object intersect)) eqn:Hmesh.
      - apply (addDebugIntersect_normal intersect fd res group Hf Hres).
        intros k ->.
        destruct (resolver_range intersect fd k Hf (mesh_not_points _ Hmesh) Hres)
          as (ss & _ & Hk).
        assert (k <> -1) by (intros ->; apply (Hh Hmesh); exact Hres).
        lia.
      - unfold addDebugIntersect. rewrite Hmesh. eexists. reflexivity. }
    destruct Hdbg as (group' & Hdbg).
    destruct (pickIntersect_normal enablePickTechnique _ _ _ _ Hf Hdbg) as (r & Hr).
    exists r, group'. exact Hr.
  - exists (initialPickResult intersect), group. apply pickIntersect_plain, Hf.
Qed.

Lemma pickIntersects_harmless (enablePickTechnique : bool) (hits : list Intersection.t) :
  Forall harmless hits ->
  forall group,
    exists results group',
      pickIntersects enablePickTechnique hits group = Normal (results, group').
Proof.
  induction 1 as [|intersect hits Hh _ IH]; intros group; cbn [pickIntersects].
  - eexists. eexists. reflexivity.
  - destruct (pickIntersect_harmless enablePickTechnique intersect group Hh)
      as (r & g & ->).
    cbn [bind snd fst]. destruct (IH g) as (results & g' & ->).
    cbn [bind snd fst]. eexists. eexists. reflexivity.
Qed.

Lemma intersectRoadsOf_normal (rp : RoadPicker.t) (cameraPos ground : Vector3)
    (tiles : list Tile) :
  exists roads, intersectRoadsOf (Some rp) cameraPos ground tiles = Normal roads.
Proof.
  induction tiles as [|tile tiles (roads & IH)]; cbn [intersectRoadsOf].
  - eexists. reflexivity.
  - rewrite IH. cbn [bind]. eexists. reflexivity.
Qed.

Lemma roadHits_normal (h : PickHandler) (x y : Q) :
  (enableRoadPicking h = true -> m_roadPicker h <> None) ->
  exists roads, roadHits h x y = Normal roads.
Proof.
  intros Hrp. unfold roadHits.
  destruct (enableRoadPicking h); [| eexists; reflexivity].
  destruct (m_roadPicker h) as [rp|]; [apply intersectRoadsOf_normal |].
  exfalso. apply Hrp; reflexivity.
Qed.
End Completion.

(** ** Further properties of the picker *)

(** X1: a hit below the first entry of [starts] (lines 82 to 93, 241, 354 to 380
    and 430 to 437): on an object that is not a point primitive, with at
    least two entries in [starts], all above the buffer-local index, the
    resolver returns -1 and [objInfos[-1]] is [undefined]; the loop body
    throws when the object is a mesh whose metadata has bounding volumes,
    and otherwise emits a pick result without [userData]. *)
Theorem below_first_start_behaviour {T : Toolkit}
    (intersect : Intersection.t) (fd : TileFeatureData) (ss : list Z) (i : Z) :
  featureOf intersect = Some fd ->
  instanceofMapViewPoints (Intersection.object intersect) = false ->
  starts fd = Some ss ->
  (2 <= List.length ss)%nat ->
  intersectIndex intersect = Some i ->
  Forall (fun s => i < s) ss ->
  getIntersectedFeatureIndex intersect = Normal (Some (-1)) /\
  (forall infos : list ObjInfo, array_get infos (-1) = None) /\
  forall (enablePickTechnique : bool) (group : list DebugObject),
    (instanceofMesh (Intersection.object intersect) = true ->
     boundingVolumes fd <> None ->
     pickIntersect enablePickTechnique intersect group = Throw TypeError) /\
    (instanceofMesh (Intersection.object intersect) = false \/ boundingVolumes fd = None ->
     exists r group',
       pickIntersect enablePickTechnique intersect group = Normal (r, group') /\
       PickResult.userData r = None).
Proof.
  intros Hf Hnp Hss Hlen Hi Hbelow.
  destruct (resolver_below_first_start intersect fd ss i Hf Hnp Hss Hlen Hi Hbelow)
    as (Hres & Hget & _).
  split; [exact Hres |]. split; [exact Hget |].
  intros tech group.
  apply (pickIntersect_below_first_start intersect fd ss i Hf Hnp Hss Hlen Hi Hbelow).
Qed.

(** X2: the sort of lines 308 to 310 fixes the returned list: any arrangement of
    the label, geometry and road hits that is ascending by distance and keeps
    the insertion order within every distance is the list the query
    returns. *)
Theorem returned_list_is_the_stable_sort {T : Toolkit} (h : PickHandler) (x y : Q)
    (s s' : PickState) (results : list PickResult.t) :
  intersectMapObjects h x y s = Normal (results, s') ->
  exists geometry group roads,
    geometryHits h x y s = Normal (geometry, group) /\
    roadHits h x y = Normal roads /\
    forall arranged,
      Sorted distance_le arranged ->
      (forall d, filter (atDistance d) arranged
                 = filter (atDistance d) (labelHits h x y ++ geometry ++ roads)) ->
      arranged = results.
Proof.
  intros Hq.
  destruct (intersectMapObjects_inv h x y s s' results Hq)
    as (geometry & group & roads & Hg & Hr & ->).
  exists geometry, group, roads. split; [exact Hg |]. split; [exact Hr |].
  intros arranged Hsorted Hstable.
  apply (sorted_stable_unique PickResult.t PickResult.distance).
  - exact Hsorted.
  - apply (Array_sort_sorted PickResult.t PickResult.distance).
  - intros d. etransitivity; [exact (Hstable d) |]. symmetry.
    apply (Array_sort_filter PickResult.t PickResult.distance).
Qed.

(** A query completes normally when the handler has a road picker whenever
    road picking is enabled and no hit on a mesh resolves to -1
    (lines 188 to 317). *)
Theorem intersectMapObjects_completes {T : Toolkit} (h : PickHandler) (x y : Q)
    (s : PickState) :
  (enableRoadPicking h = true -> m_roadPicker h <> None) ->
  Forall harmless (intersects (broadPhase h x y s)) ->
  exists results s', intersectMapObjects h x y s = Normal (results, s').
Proof.
  intros Hrp Hhits. unfold intersectMapObjects.
  match goal with
  | |- context [broadPhase h x y ?c] =>
      destruct (broadPhase_view h x y c s) as [Hview _]; rewrite Hview
  end.
  match goal with
  | |- context [pickIntersects ?t ?l ?g] =>
      destruct (pickIntersects_harmless t l Hhits g) as (geometry & group & ->)
  end.
  cbn [bind]. destruct (roadHits_normal h x y Hrp) as (roads & ->). cbn [bind].
  eexists. eexists. reflexivity.
Qed.

(** The handler the constructor builds has a road picker exactly when road
    picking is enabled, and [registerTile] passes the tile on to it
    (lines 152 to 177). *)
Theorem newPickHandler_roadPicker {T : Toolkit} (mv : MapView) (cam : Camera)
    (enablePickTechnique : bool) (tile : Tile) :
  (forall enableRoadPicking,
      enableRoadPicking = true ->
      m_roadPicker (newPickHandler mv cam enableRoadPicking enablePickTechnique) <> None) /\
  registerTile (newPickHandler mv cam true enablePickTechnique) tile
    = Some (RoadPicker.registerTile (newRoadPicker mv) tile) /\
  registerTile (newPickHandler mv cam false enablePickTechnique) tile = None.
Proof.
  split; [intros erp ->; discriminate |]. split; reflexivity.
Qed.

(** X3: off the point primitives the resolver yields [undefined], -1, or a valid
    index of [starts] (lines 70 to 93). *)
Theorem resolver_yields_index_of_starts (intersect : Intersection.t)
    (fd : TileFeatureData) (k : Z) :
  featureOf intersect = Some fd ->
  instanceofMapViewPoints (Intersection.object intersect) = false ->
  getIntersectedFeatureIndex intersect = Normal (Some k) ->
  exists ss, starts fd = Some ss /\ -1 <= k < Z.of_nat (List.length ss).
Proof.
  exact (resolver_range intersect fd k).
Qed.

(** ** The statements on the sample scene *)

(** C1 on the sample scene: the query returns the icon at distance 2, then
    the results at distance 5: the label, the polygon, the two road hits. *)
Lemma intersectMapObjects_sorted_stable_witness :
  intersectMapObjects (sampleHandler hitAndMissTiles) 0%Q 0%Q sampleState
    = Normal (sampleResults, sampleStateAfter) /\
  (forall i a b,
      nth_error sampleResults i = Some a -> nth_error sampleResults (S i) = Some b ->
      (PickResult.distance a <= PickResult.distance b)%Q) /\
  map PickResult.type sampleResults
    = [PickObjectType.Icon; PickObjectType.Text; PickObjectType.Area;
       PickObjectType.Line; PickObjectType.Line].
Proof.
  split; [vm_compute; reflexivity |].
  split; [| reflexivity].
  refine (proj1 (@intersectMapObjects_sorted_stable sampleToolkit
                   (sampleHandler hitAndMissTiles) 0%Q 0%Q sampleState
                   sampleStateAfter sampleResults _)).
  vm_compute. reflexivity.
Defined.

(** C2 on a line object hit on face 4 of a buffer with starts 0, 10, 25. *)
Lemma resolver_counts_starts_witness :
  Sorted Z.lt [0; 10; 25] /\
  getIntersectedFeatureIndex
    (sampleHit (sampleObject OtherObject (Some polygonFeature)) (Some 4) None)
    = Normal (Some (countLe [0; 10; 25] 12 - 1)).
Proof.
  assert (Hasc : Sorted Z.lt [0; 10; 25]) by (repeat constructor).
  split; [exact Hasc |].
  refine (proj1 resolver_counts_starts _ polygonFeature [0; 10; 25] 12 _ _ _ Hasc _ _);
    try reflexivity.
  simpl. lia.
Defined.

(** C3 on a list with a repeated offset. *)
Lemma binarySearch_linearSearch_witness :
  Sorted Z.le [0; 10; 10; 25] /\
  binarySearch [0; 10; 10; 25] 10 = linearSearch [0; 10; 10; 25] 10.
Proof.
  assert (Hasc : Sorted Z.le [0; 10; 10; 25]) by (repeat constructor; lia).
  split; [exact Hasc |].
  exact (binarySearch_linearSearch [0; 10; 10; 25] 10 Hasc).
Defined.

(** C4 on a mesh whose [starts] is empty. *)
Lemma unresolved_hit_has_no_userData_witness :
  getIntersectedFeatureIndex
    (sampleHit (sampleObject Mesh (Some (sampleFeature (Some []) None))) (Some 4) None)
    = Normal None /\
  exists r group',
    pickIntersect false
      (sampleHit (sampleObject Mesh (Some (sampleFeature (Some []) None))) (Some 4) None) []
      = Normal (r, group') /\
    PickResult.userData r = None.
Proof.
  pose proof (@unresolved_hit_has_no_userData sampleToolkit
    (sampleHit (sampleObject Mesh (Some (sampleFeature (Some []) None))) (Some 4) None)
    (or_intror (conj eq_refl
       (ex_intro _ (sampleFeature (Some []) None)
          (conj eq_refl (or_intror (or_introl eq_refl))))))) as Hthm.
  split; [apply (proj1 Hthm); discriminate | apply (proj2 Hthm)].
Defined.

(** C5 on a polygon mesh. *)
Lemma pick_category_table_witness :
  exists r group',
    pickIntersect false (sampleHit (sampleObject Mesh (Some polygonFeature)) (Some 4) None) []
      = Normal (r, group') /\
    PickResult.type r = PickObjectType.Area.
Proof.
  eexists. eexists. split; [vm_compute; reflexivity |].
  exact (proj1 (@pick_category_table sampleToolkit) false
           (sampleHit (sampleObject Mesh (Some polygonFeature)) (Some 4) None)
           polygonFeature [] _ _ eq_refl eq_refl).
Defined.

(** C6 on the scene whose only tile lies off the ray: the terrain tile is in
    the way but skipped. *)
Lemma missed_tiles_yield_no_geometry_witness :
  raycastTiles (broadPhase (sampleHandler missedTiles) 0%Q 0%Q sampleState) = [] /\
  returned (intersectMapObjects (sampleHandler missedTiles) 0%Q 0%Q sampleState)
    = Normal [sampleResult PickObjectType.Icon 2%Q;
              sampleResult PickObjectType.Text 5%Q;
              sampleResult PickObjectType.Line 5%Q].
Proof.
  assert (Hmiss : forall entry,
             In entry (dataSourceTileList (mapView (sampleHandler missedTiles))) ->
             name (dataSource entry) <> "Terrain"%string ->
             name (dataSource entry) <> "background"%string ->
             forall tile, In tile (renderedTiles entry) ->
               intersectsRay (cullBox (mapView (sampleHandler missedTiles)) tile)
                 (ray (raycasterFromScreenPoint
                         (mapView (sampleHandler missedTiles)) 0%Q 0%Q)) = None).
  { intros entry [<- | [<- | []]] Ht Hb tile Htile.
    - exfalso. apply Ht. reflexivity.
    - destruct Htile as [<- | []]. reflexivity. }
  pose proof (@missed_tiles_yield_no_geometry sampleToolkit
                (sampleHandler missedTiles) 0%Q 0%Q sampleState Hmiss) as Hthm.
  split; [apply Hthm |].
  destruct Hthm as (_ & _ & _ & _ & ->). reflexivity.
Defined.

(** C7 on a point primitive with three features, hit at point 12. *)
Lemma resolver_point_primitive_witness :
  getIntersectedFeatureIndex (pointsHit [0; 10; 25] 12) = Normal (Some 12).
Proof.
  exact (resolver_point_primitive (pointsHit [0; 10; 25] 12)
           (sampleFeature (Some [0; 10; 25]) None) eq_refl eq_refl).
Defined.

(** C8 on a line object whose single feature starts at 7, hit at vertex 3. *)
Lemma resolver_single_start_witness :
  getIntersectedFeatureIndex (lineHit [7] 3) = Normal (Some 0).
Proof.
  exact (resolver_single_start (lineHit [7] 3) (sampleFeature (Some [7]) None) 7 3
           eq_refl eq_refl eq_refl eq_refl).
Defined.

(** C9 on the sample scene: the query repeated on the state the first call
    left returns the same list. *)
Lemma intersectMapObjects_deterministic_witness :
  intersectMapObjects (sampleHandler hitAndMissTiles) 0%Q 0%Q sampleState
    = Normal (sampleResults, sampleStateAfter) /\
  exists s2,
    intersectMapObjects (sampleHandler hitAndMissTiles) 0%Q 0%Q sampleStateAfter
      = Normal (sampleResults, s2).
Proof.
  assert (Hq : intersectMapObjects (sampleHandler hitAndMissTiles) 0%Q 0%Q sampleState
               = Normal (sampleResults, sampleStateAfter)) by (vm_compute; reflexivity).
  split; [exact Hq |].
  exact (proj2 (@intersectMapObjects_deterministic sampleToolkit
                  (sampleHandler hitAndMissTiles) 0%Q 0%Q)
           sampleState sampleStateAfter sampleResults Hq).
Defined.

(** A hit below the first start: the mesh of [lateTiles] makes the loop body
    throw, a line object with the same [starts] yields a result without
    [userData]. *)
Lemma below_first_start_behaviour_witness :
  Forall (fun s => 12 < s) [15; 20] /\
  getIntersectedFeatureIndex lateHit = Normal (Some (-1)) /\
  pickIntersect false lateHit [] = Throw TypeError /\
  exists r group',
    pickIntersect false (lineHit [15; 20] 12) [] = Normal (r, group') /\
    PickResult.userData r = None.
Proof.
  assert (Hbelow : Forall (fun s => 12 < s) [15; 20]) by (repeat constructor).
  assert (Hlen : (2 <= List.length [15; 20])%nat) by (simpl; lia).
  pose proof (@below_first_start_behaviour sampleToolkit lateHit lateFeature [15; 20] 12
                eq_refl eq_refl eq_refl Hlen eq_refl Hbelow) as Hmesh.
  pose proof (@below_first_start_behaviour sampleToolkit (lineHit [15; 20] 12)
                (sampleFeature (Some [15; 20]) None) [15; 20] 12
                eq_refl eq_refl eq_refl Hlen eq_refl Hbelow) as Hline.
  split; [exact Hbelow |]. split; [apply Hmesh |]. split.
  - apply (proj1 (proj2 (proj2 Hmesh) false [])); [reflexivity | discriminate].
  - apply (proj2 (proj2 (proj2 Hline) false [])). left. reflexivity.
Defined.

(** The sample results are the only sorted and stable arrangement. *)
Lemma returned_list_is_the_stable_sort_witness :
  exists geometry group roads,
    geometryHits (sampleHandler hitAndMissTiles) 0%Q 0%Q sampleState
      = Normal (geometry, group) /\
    roadHits (sampleHandler hitAndMissTiles) 0%Q 0%Q = Normal roads /\
    forall arranged,
      Sorted distance_le arranged ->
      (forall d, filter (atDistance d) arranged
                 = filter (atDistance d)
                     (labelHits (sampleHandler hitAndMissTiles) 0%Q 0%Q
                        ++ geometry ++ roads)) ->
      arranged = sampleResults.
Proof.
  refine (@returned_list_is_the_stable_sort sampleToolkit
            (sampleHandler hitAndMissTiles) 0%Q 0%Q sampleState
            sampleStateAfter sampleResults _).
  vm_compute. reflexivity.
Defined.

(** The sample query completes. *)
Lemma intersectMapObjects_completes_witness :
  exists results s',
    intersectMapObjects (sampleHandler hitAndMissTiles) 0%Q 0%Q sampleState
      = Normal (results, s').
Proof.
  apply (@intersectMapObjects_completes sampleToolkit).
  - discriminate.
  - vm_compute. repeat constructor. intros _. discriminate.
Defined.

(** The constructor with road picking enabled. *)
Lemma newPickHandler_roadPicker_witness :
  m_roadPicker (sampleHandler hitAndMissTiles) <> None.
Proof.
  exact (proj1 (@newPickHandler_roadPicker sampleToolkit
                  (sampleMapView hitAndMissTiles) {| cameraPosition := Vector3_zero |}
                  false (sampleTile polygonFeature 0%Q))
           true eq_refl).
Defined.

(** The index resolved on a line object with three features. *)
Lemma resolver_yields_index_of_starts_witness :
  exists ss,
    starts (sampleFeature (Some [0; 10; 25]) None) = Some ss /\
    -1 <= 1 < Z.of_nat (List.length ss).
Proof.
  exact (resolver_yields_index_of_starts (lineHit [0; 10; 25] 12)
           (sampleFeature (Some [0; 10; 25]) None) 1 eq_refl eq_refl eq_refl).
Defined.

(** * More of the picker *)

(** ** The scan, entry by entry *)

Lemma array_get_head {A} (a : A) (l : list A) : array_get (a :: l) 0 = Some a.
Proof. reflexivity. Qed.

Lemma array_get_tail {A} (a : A) (l : list A) (j : Z) :
  0 <= j -> array_get (a :: l) (j + 1) = array_get l j.
Proof.
  intros Hj. unfold array_get.
  destruct (Z.ltb_spec (j + 1) 0); [lia |]. destruct (Z.ltb_spec j 0); [lia |].
  replace (Z.to_nat (j + 1)) with (S (Z.to_nat j)) by lia. reflexivity.
Qed.

Lemma scanStarts_shift (ss : list Z) (i k : Z) :
  scanStarts ss i k = k + scanStarts ss i 0.
Proof.
  revert k. induction ss as [|a ss IH]; intros k; cbn [scanStarts]; [lia |].
  destruct (a >? i); [lia |].
  rewrite (IH (k + 1)), (IH (0 + 1)). lia.
Qed.

(** The scan stops behind the longest run of leading entries that do not
    exceed the index, whether or not the list is ascending. *)
Lemma scanStarts_prefix (ss : list Z) (i : Z) :
  0 <= scanStarts ss i 0 /\
  (forall j, 0 <= j < scanStarts ss i 0 -> exists s, array_get ss j = Some s /\ s <= i) /\
  (forall s, array_get ss (scanStarts ss i 0) = Some s -> i < s).
Proof.
  induction ss as [|a ss (IH0 & IHlow & IHstop)]; cbn [scanStarts].
  - split; [lia |]. split; [intros j Hj; lia | intros s Hs; discriminate].
  - destruct (Z.gtb_spec a i) as [Hgt | Hle].
    + split; [lia |]. split; [intros j Hj; lia |].
      intros s Hs. rewrite array_get_head in Hs. injection Hs as <-. lia.
    + rewrite (scanStarts_shift ss i (0 + 1)).
      split; [lia |]. split.
      * intros j Hj. destruct (Z.eq_dec j 0) as [-> | Hnz].
        -- exists a. split; [apply array_get_head | exact Hle].
        -- replace j with ((j - 1) + 1) by lia.
           rewrite array_get_tail by lia. apply IHlow. lia.
      * intros s Hs.
        replace (0 + 1 + scanStarts ss i 0) with (scanStarts ss i 0 + 1) in Hs by lia.
        rewrite array_get_tail in Hs by lia. apply IHstop, Hs.
Qed.

Lemma scanStarts_monotone (ss : list Z) (i j : Z) :
  i <= j -> scanStarts ss i 0 <= scanStarts ss j 0.
Proof.
  intros Hij. induction ss as [|a ss IH]; cbn [scanStarts]; [lia |].
  destruct (Z.gtb_spec a i), (Z.gtb_spec a j); try lia.
  - pose proof (proj1 (scanStarts_prefix ss j)).
    rewrite (scanStarts_shift ss j (0 + 1)). lia.
  - rewrite (scanStarts_shift ss i (0 + 1)), (scanStarts_shift ss j (0 + 1)). lia.
Qed.

(** The cases of the resolver on an object that is not a point primitive. *)
Lemma resolver_cases (intersect : Intersection.t) (fd : TileFeatureData) :
  featureOf intersect = Some fd ->
  instanceofMapViewPoints (Intersection.object intersect) = false ->
  getIntersectedFeatureIndex intersect
    = match starts fd, intersectIndex intersect with
      | Some (s0 :: s1 :: rest), Some i => Normal (Some (linearSearch (s0 :: s1 :: rest) i))
      | Some [_], Some _ => Normal (Some 0)
      | _, _ => Normal None
      end.
Proof.
  intros Hf Hnp. destruct (featureOf_userData _ _ Hf) as (ud & Hud & Hfd).
  unfold getIntersectedFeatureIndex. rewrite Hud, Hfd, Hnp.
  destruct (starts fd) as [[|s0 [|s1 rest]]|]; cbn [List.length Nat.eqb];
    destruct (intersectIndex intersect); reflexivity.
Qed.

(** X4: the resolved feature is the one whose stretch of the buffer holds the
    hit (lines 82 to 93): with at least two entries in [starts], on an object
    that is not a point primitive, the resolver returns an index [k] such
    that every entry up to position [k] is at most the buffer-local index
    and the entry at position [k + 1], if there is one, is greater.  For
    [k = -1] this says that the first entry is already greater. *)
Theorem resolver_hit_within_feature_range (intersect : Intersection.t)
    (fd : TileFeatureData) (ss : list Z) (i : Z) :
  featureOf intersect = Some fd ->
  instanceofMapViewPoints (Intersection.object intersect) = false ->
  starts fd = Some ss ->
  (2 <= List.length ss)%nat ->
  intersectIndex intersect = Some i ->
  exists k,
    getIntersectedFeatureIndex intersect = Normal (Some k) /\
    (forall j, 0 <= j <= k -> exists s, array_get ss j = Some s /\ s <= i) /\
    (forall s, array_get ss (k + 1) = Some s -> i < s).
Proof.
  intros Hf Hnp Hss Hlen Hi.
  exists (linearSearch ss i).
  split; [apply (resolver_scan intersect fd ss i Hf Hnp Hss Hlen Hi) |].
  destruct (scanStarts_prefix ss i) as (_ & Hlow & Hstop). unfold linearSearch.
  split.
  - intros j Hj. apply Hlow. lia.
  - intros s Hs. apply Hstop. replace (scanStarts ss i 0) with (scanStarts ss i 0 - 1 + 1) by lia.
    exact Hs.
Qed.

(** X5: two hits on one object that is not a point primitive: the hit with the
    greater buffer-local index never resolves to the smaller feature index,
    whatever [starts] holds (lines 70 to 93). *)
Theorem resolver_monotone (hit1 hit2 : Intersection.t) (fd : TileFeatureData)
    (i1 i2 k1 k2 : Z) :
  Intersection.object hit1 = Intersection.object hit2 ->
  featureOf hit1 = Some fd ->
  instanceofMapViewPoints (Intersection.object hit1) = false ->
  intersectIndex hit1 = Some i1 ->
  intersectIndex hit2 = Some i2 ->
  i1 <= i2 ->
  getIntersectedFeatureIndex hit1 = Normal (Some k1) ->
  getIntersectedFeatureIndex hit2 = Normal (Some k2) ->
  k1 <= k2.
Proof.
  intros Hobj Hf1 Hnp1 Hi1 Hi2 Hle.
  assert (Hf2 : featureOf hit2 = Some fd) by (unfold featureOf in *; rewrite <- Hobj; exact Hf1).
  assert (Hnp2 : instanceofMapViewPoints (Intersection.object hit2) = false)
    by (rewrite <- Hobj; exact Hnp1).
  rewrite (resolver_cases hit1 fd Hf1 Hnp1), (resolver_cases hit2 fd Hf2 Hnp2), Hi1, Hi2.
  destruct (starts fd) as [[|s0 [|s1 rest]]|]; intros H1 H2; try discriminate.
  - injection H1 as <-. injection H2 as <-. lia.
  - injection H1 as <-. injection H2 as <-. unfold linearSearch.
    pose proof (scanStarts_monotone (s0 :: s1 :: rest) i1 i2 Hle). lia.
Qed.

(** ** What a geometry result is made of *)

Section EmittedResults.
Context {T : Toolkit}.

Lemma addObjInfo_keeps (fd : TileFeatureData) (intersect : Intersection.t)
    (p r : PickResult.t) :
  addObjInfo fd intersect p = Normal r ->
  PickResult.type r = PickResult.type p /\
  PickResult.point r = PickResult.point p /\
  PickResult.distance r = PickResult.distance p /\
  PickResult.featureId r = PickResult.featureId p /\
  PickResult.intersection r = PickResult.intersection p /\
  PickResult.technique r = PickResult.technique p.
Proof.
  unfold addObjInfo. destruct (objInfos fd) as [infos|].
  - destruct (getIntersectedFeatureIndex intersect) as [[k|]|e]; cbn [bind];
      intros Heq; try discriminate; injection Heq as <-; repeat split.
  - intros Heq. injection Heq as <-. repeat split.
Qed.

Lemma addObjInfo_userData (fd : TileFeatureData) (intersect : Intersection.t)
    (p r : PickResult.t) (infos : list ObjInfo) (k : Z) :
  objInfos fd = Some infos ->
  getIntersectedFeatureIndex intersect = Normal (Some k) ->
  addObjInfo fd intersect p = Normal r ->
  PickResult.userData r = array_get infos k.
Proof.
  intros Hinfos Hres. unfold addObjInfo. rewrite Hinfos, Hres. cbn [bind].
  intros Heq. injection Heq as <-. reflexivity.
Qed.

(** The fields of the result pushed for a hit, apart from [type] and
    [userData]. *)
Lemma pickIntersect_fields (enablePickTechnique : bool) (intersect : Intersection.t)
    (group group' : list DebugObject) (r : PickResult.t) :
  pickIntersect enablePickTechnique intersect group = Normal (r, group') ->
  PickResult.distance r = Intersection.distance intersect /\
  PickResult.point r = inr (Intersection.point intersect) /\
  PickResult.intersection r = Some intersect /\
  PickResult.technique r
    = (if enablePickTechnique
       then match featureOf intersect with
            | Some _ => techniqueOf intersect
            | None => None
            end
       else None) /\
  PickResult.featureId r
    = match featureOf intersect with
      | Some fd =>
          match objInfos fd with
          | Some [info] => Some (getFeatureId (Some info))
          | _ => None
          end
      | None => None
      end.
Proof.
  unfold pickIntersect. destruct (featureOf intersect) as [fd|] eqn:Hf.
  - destruct (addDebugIntersect intersect group) as [g|e]; cbn [bind]; [| discriminate].
    destruct (addObjInfo fd intersect _) as [r0|e] eqn:Hobj; cbn [bind]; [| discriminate].
    intros Heq. injection Heq as <- <-.
    apply addObjInfo_keeps in Hobj.
    destruct Hobj as (_ & Hpoint & Hdist & Hfid & Hint & Htech).
    destruct (objInfos fd) as [[|info [|info' infos]]|]; cbn;
      rewrite ?Hpoint, ?Hdist, ?Hint, ?Htech, ?Hfid;
      destruct enablePickTechnique; repeat split.
  - intros Heq. injection Heq as <- <-. destruct enablePickTechnique; repeat split.
Qed.

Lemma pickIntersects_fields (enablePickTechnique : bool) (hits : list Intersection.t) :
  forall group group' results,
    pickIntersects enablePickTechnique hits group = Normal (results, group') ->
    map PickResult.intersection results = map Some hits /\
    map PickResult.distance results = map Intersection.distance hits.
Proof.
  induction hits as [|intersect hits IH]; intros group group' results;
    cbn [pickIntersects].
  - intros Heq. injection Heq as <- <-. split; reflexivity.
  - destruct (pickIntersect enablePickTechnique intersect group) as [[r g]|e] eqn:Hstep;
      cbn [bind fst snd]; [| discriminate].
    destruct (pickIntersects enablePickTechnique hits g) as [[rs g1]|e] eqn:Hrest;
      cbn [bind fst snd]; [| discriminate].
    intros Heq. injection Heq as <- <-.
    destruct (pickIntersect_fields _ _ _ _ _ Hstep) as (Hd & _ & Hi & _).
    destruct (IH _ _ _ Hrest) as [Hmi Hmd].
    cbn [map]. rewrite Hd, Hi, Hmi, Hmd. split; reflexivity.
Qed.

(** X7: every result pushed for a hit carries the hit itself, its distance and
    its point; [technique] is the object's technique only when
    [enablePickTechnique] is set and the object has feature metadata;
    [featureId] is the id of the only record when [objInfos] holds exactly
    one, and [undefined] otherwise (lines 226 to 256). *)
Theorem geometry_result_fields (enablePickTechnique : bool)
    (intersect : Intersection.t) (group group' : list DebugObject) (r : PickResult.t) :
  pickIntersect enablePickTechnique intersect group = Normal (r, group') ->
  PickResult.distance r = Intersection.distance intersect /\
  PickResult.point r = inr (Intersection.point intersect) /\
  PickResult.intersection r = Some intersect /\
  PickResult.technique r
    = (if enablePickTechnique
       then match featureOf intersect with
            | Some _ => techniqueOf intersect
            | None => None
            end
       else None) /\
  PickResult.featureId r
    = match featureOf intersect with
      | Some fd =>
          match objInfos fd with
          | Some [info] => Some (getFeatureId (Some info))
          | _ => None
          end
      | None => None
      end.
Proof.
  apply pickIntersect_fields.
Qed.

(** X8: the geometry phase pushes one result per raw intersection, in the order
    the raycaster left them in [intersects], each with the distance of its
    intersection (lines 225 to 284). *)
Theorem one_result_per_intersection (h : PickHandler) (x y : Q) (s : PickState)
    (geometry : list PickResult.t) (group : list DebugObject) :
  geometryHits h x y s = Normal (geometry, group) ->
  map PickResult.intersection geometry = map Some (intersects (broadPhase h x y s)) /\
  map PickResult.distance geometry
    = map Intersection.distance (intersects (broadPhase h x y s)).
Proof.
  unfold geometryHits. intros Hg.
  apply pickIntersects_fields in Hg.
  match type of Hg with
  | context [broadPhase h x y ?c] =>
      destruct (broadPhase_view h x y c s) as [Hview _]; rewrite Hview in Hg
  end.
  exact Hg.
Qed.

(** X9: the record a pick returns is the one of the feature that holds the hit
    (lines 82 to 93 and 430 to 437): on an object that is not a point
    primitive, with as many records in [objInfos] as entries in [starts], at
    least two of them, and a buffer-local index not below the first entry,
    the loop body completes and [userData] is the record at the position [k]
    for which [starts[k]] is at most the index and [starts[k + 1]], if
    present, is greater. *)
Theorem userData_of_containing_feature (enablePickTechnique : bool)
    (intersect : Intersection.t) (fd : TileFeatureData) (ss : list Z)
    (infos : list ObjInfo) (s0 i : Z) (group : list DebugObject) :
  featureOf intersect = Some fd ->
  instanceofMapViewPoints (Intersection.object intersect) = false ->
  starts fd = Some ss ->
  objInfos fd = Some infos ->
  List.length infos = List.length ss ->
  (2 <= List.length ss)%nat ->
  intersectIndex intersect = Some i ->
  array_get ss 0 = Some s0 ->
  s0 <= i ->
  exists k sk info r group',
    pickIntersect enablePickTechnique intersect group = Normal (r, group') /\
    PickResult.userData r = Some info /\
    array_get infos k = Some info /\
    array_get ss k = Some sk /\ sk <= i /\
    (forall s, array_get ss (k + 1) = Some s -> i < s).
Proof.
  intros Hf Hnp Hss Hinfos Hsame Hlen Hi Hs0 Hle.
  pose proof (resolver_scan intersect fd ss i Hf Hnp Hss Hlen Hi) as Hres.
  destruct (scanStarts_prefix ss i) as (_ & Hlow & Hstop).
  pose proof (scanStarts_upper ss i 0) as Hup.
  assert (Hpos : 0 <= linearSearch ss i).
  { unfold linearSearch.
    destruct (Z_lt_le_dec (scanStarts ss i 0) 1) as [Hlt | Hge]; [| lia].
    pose proof (proj1 (scanStarts_prefix ss i)).
    assert (H0 : scanStarts ss i 0 = 0) by lia.
    specialize (Hstop s0). rewrite H0 in Hstop. specialize (Hstop Hs0). lia. }
  set (k := linearSearch ss i) in *.
  destruct (Hlow k) as (sk & Hsk & Hskle); [unfold k, linearSearch in *; lia |].
  destruct (array_get_in_range infos k) as (info & Hinfo);
    [unfold k, linearSearch in *; lia |].
  destruct (addDebugIntersect_normal intersect fd (Some k) group Hf Hres) as (group' & Hdbg).
  { intros j Hj. injection Hj as <-. exact Hpos. }
  destruct (pickIntersect_normal enablePickTechnique _ _ _ _ Hf Hdbg) as (r & Hr).
  exists k, sk, info, r, group'.
  split; [exact Hr |].
  destruct (pickIntersect_inv _ _ _ _ _ _ Hf Hr) as (r0 & _ & Hobj & _ & Hud & _).
  rewrite Hud, (addObjInfo_userData _ _ _ _ infos k Hinfos Hres Hobj).
  repeat split; try assumption.
  intros s Hs. apply Hstop. unfold k, linearSearch in Hs.
  replace (scanStarts ss i 0) with (scanStarts ss i 0 - 1 + 1) by lia. exact Hs.
Qed.

(** X10: on a point primitive the record is the one at the point index (lines 66
    to 68 and 430 to 437): the loop body completes, and [userData] is
    [objInfos[index]], which is [undefined] when the index is outside
    [objInfos] or the hit carries none. *)
Theorem userData_of_point (enablePickTechnique : bool) (intersect : Intersection.t)
    (fd : TileFeatureData) (infos : list ObjInfo) (group : list DebugObject) :
  featureOf intersect = Some fd ->
  instanceofMapViewPoints (Intersection.object intersect) = true ->
  objInfos fd = Some infos ->
  exists r group',
    pickIntersect enablePickTechnique intersect group = Normal (r, group') /\
    PickResult.userData r
      = match Intersection.index intersect with
        | Some k => array_get infos k
        | None => None
        end.
Proof.
  intros Hf Hp Hinfos.
  assert (Hres : getIntersectedFeatureIndex intersect
                 = Normal (Intersection.index intersect)).
  { destruct (featureOf_userData _ _ Hf) as (ud & Hud & Hfd).
    unfold getIntersectedFeatureIndex. rewrite Hud, Hfd, Hp. reflexivity. }
  assert (Hdbg : addDebugIntersect intersect group = Normal group).
  { unfold addDebugIntersect, instanceofMesh.
    unfold instanceofMapViewPoints in Hp.
    destruct (Object3D.class (Intersection.object intersect)); try discriminate.
    reflexivity. }
  destruct (pickIntersect_normal enablePickTechnique _ _ _ _ Hf Hdbg) as (r & Hr).
  exists r, group. split; [exact Hr |].
  destruct (pickIntersect_inv _ _ _ _ _ _ Hf Hr) as (r0 & _ & Hobj & _ & Hud & _).
  rewrite Hud. destruct (Intersection.index intersect) as [k|] eqn:Hk.
  - apply (addObjInfo_userData _ _ _ _ infos k Hinfos Hres Hobj).
  - rewrite addObjInfo_unresolved in Hobj by exact Hres.
    injection Hobj as <-. apply initial_userData.
Qed.
End EmittedResults.

(** ** The broad phase, tile by tile *)

Section BroadPhaseFacts.
Context {T : Toolkit}.

Lemma cullTile_step (mv : MapView) (rc : Raycaster) (acc : BroadPhase) (tile : Tile) :
  raycastTiles (cullTile mv rc acc tile)
    = raycastTiles acc ++ filter (inTheWay mv rc) [tile] /\
  intersects (cullTile mv rc acc tile)
    = fold_left (fun target t => intersectObjects rc (objects t) target)
                (filter (inTheWay mv rc) [tile]) (intersects acc) /\
  m_debugGroup (broadState (cullTile mv rc acc tile))
    = m_debugGroup (broadState acc) ++ map redBox (filter (inTheWay mv rc) [tile]).
Proof.
  unfold cullTile, inTheWay, cullBox. rewrite OrientedBox3_copy_other. cbn [filter].
  destruct (intersectsRay _ _); cbn; rewrite ?app_nil_r; repeat split.
Qed.

Lemma cullTiles_steps (mv : MapView) (rc : Raycaster) (tiles : list Tile) :
  forall acc,
    raycastTiles (fold_left (cullTile mv rc) tiles acc)
      = raycastTiles acc ++ filter (inTheWay mv rc) tiles /\
    intersects (fold_left (cullTile mv rc) tiles acc)
      = fold_left (fun target t => intersectObjects rc (objects t) target)
                  (filter (inTheWay mv rc) tiles) (intersects acc) /\
    m_debugGroup (broadState (fold_left (cullTile mv rc) tiles acc))
      = m_debugGroup (broadState acc) ++ map redBox (filter (inTheWay mv rc) tiles).
Proof.
  induction tiles as [|tile tiles IH]; intros acc; cbn [fold_left].
  - cbn. rewrite !app_nil_r. repeat split.
  - destruct (IH (cullTile mv rc acc tile)) as (Hr & Hi & Hg).
    destruct (cullTile_step mv rc acc tile) as (Hr1 & Hi1 & Hg1).
    rewrite Hr, Hi, Hg, Hr1, Hi1, Hg1.
    change (tile :: tiles) with ([tile] ++ tiles).
    rewrite !filter_app, map_app, fold_left_app, !app_assoc. repeat split.
Qed.

Lemma cullDataSources_steps (mv : MapView) (rc : Raycaster)
    (entries : list DataSourceTileList) :
  let tiles :=
    filter (inTheWay mv rc)
      (flat_map renderedTiles
         (filter (fun entry => negb (isSkippedDataSource (dataSource entry))) entries)) in
  forall acc,
    raycastTiles (fold_left (cullDataSource mv rc) entries acc)
      = raycastTiles acc ++ tiles /\
    intersects (fold_left (cullDataSource mv rc) entries acc)
      = fold_left (fun target t => intersectObjects rc (objects t) target)
                  tiles (intersects acc) /\
    m_debugGroup (broadState (fold_left (cullDataSource mv rc) entries acc))
      = m_debugGroup (broadState acc) ++ map redBox tiles.
Proof.
  induction entries as [|entry entries IH]; intros tiles acc; cbn [fold_left].
  - subst tiles. cbn. rewrite !app_nil_r. repeat split.
  - destruct (IH (cullDataSource mv rc acc entry)) as (Hr & Hi & Hg).
    rewrite Hr, Hi, Hg. subst tiles. cbn [filter]. unfold cullDataSource.
    destruct (isSkippedDataSource (dataSource entry)); cbn [negb]; [repeat split |].
    destruct (cullTiles_steps mv rc (renderedTiles entry) acc) as (Hr1 & Hi1 & Hg1).
    rewrite Hr1, Hi1, Hg1. cbn [flat_map].
    rewrite !filter_app, map_app, fold_left_app, !app_assoc. repeat split.
Qed.

Lemma broadPhase_steps (h : PickHandler) (x y : Q) (s : PickState) :
  let mv := mapView h in
  let rc := raycasterFromScreenPoint mv x y in
  raycastTiles (broadPhase h x y s) = filter (inTheWay mv rc) (pickableTiles mv) /\
  intersects (broadPhase h x y s)
    = raycastAll rc (filter (inTheWay mv rc) (pickableTiles mv)) /\
  m_debugGroup (broadState (broadPhase h x y s))
    = m_debugGroup s ++ map redBox (filter (inTheWay mv rc) (pickableTiles mv)).
Proof.
  intros mv rc. unfold broadPhase, pickableTiles, raycastAll.
  apply (cullDataSources_steps mv rc (dataSourceTileList mv)).
Qed.

(** X11: the broad phase hands to the raycaster exactly the rendered tiles of the
    data sources other than "Terrain" and "background" whose box, moved by
    the world centre, the ray intersects, each once and in rendering order;
    [intersects] is what the raycaster leaves after these calls, made on one
    shared target array (lines 204 to 222). *)
Theorem broadPhase_raycasts_tiles_in_the_way (h : PickHandler) (x y : Q) (s : PickState) :
  raycastTiles (broadPhase h x y s)
    = filter (inTheWay (mapView h) (raycasterFromScreenPoint (mapView h) x y))
             (pickableTiles (mapView h)) /\
  intersects (broadPhase h x y s)
    = raycastAll (raycasterFromScreenPoint (mapView h) x y)
        (filter (inTheWay (mapView h) (raycasterFromScreenPoint (mapView h) x y))
                (pickableTiles (mapView h))).
Proof.
  destruct (broadPhase_steps h x y s) as (Hr & Hi & _). split; assumption.
Qed.
End BroadPhaseFacts.

(** ** The road phase *)

Section RoadPhaseFacts.
Context {T : Toolkit}.

Lemma intersectRoadsOf_some (rp : RoadPicker.t) (cameraPos ground : Vector3)
    (tiles : list Tile) :
  intersectRoadsOf (Some rp) cameraPos ground tiles
    = Normal (flat_map (fun tile => RoadPicker.intersectRoads rp tile cameraPos ground) tiles).
Proof.
  induction tiles as [|tile tiles IH]; cbn [intersectRoadsOf flat_map]; [reflexivity |].
  rewrite IH. reflexivity.
Qed.

Lemma intersectRoadsOf_none (cameraPos ground : Vector3) (tiles : list Tile) :
  intersectRoadsOf None cameraPos ground tiles
    = match tiles with [] => Normal [] | _ :: _ => Throw TypeError end.
Proof. destruct tiles; reflexivity. Qed.

Lemma roadHits_throws_iff (h : PickHandler) (x y : Q) :
  roadHits h x y = Throw TypeError <-> missesRoadPicker h.
Proof.
  unfold roadHits, missesRoadPicker.
  destruct (enableRoadPicking h).
  - destruct (m_roadPicker h) as [rp|].
    + rewrite intersectRoadsOf_some. split; [discriminate | intros (_ & Hn & _); discriminate].
    + rewrite intersectRoadsOf_none.
      destruct (forEachVisibleTile (mapView h)) as [|tile tiles].
      * split; [discriminate | intros (_ & _ & Hne); congruence].
      * split; [intros _; repeat split; discriminate | reflexivity].
  - split; [discriminate | intros (Hf & _); discriminate].
Qed.

(** X12: with a road picker at hand the road phase never throws; it asks the
    picker once per visited tile, with the camera position and the point
    where the ray meets the ground plane (the origin when it meets none),
    and the hits of the tiles follow each other in visiting order.  With
    road picking off nothing is asked (lines 291 to 306). *)
Theorem road_hits_in_tile_order (h : PickHandler) (x y : Q) :
  (enableRoadPicking h = false -> roadHits h x y = Normal []) /\
  (forall rp,
      enableRoadPicking h = true ->
      m_roadPicker h = Some rp ->
      roadHits h x y
        = Normal (flat_map
                    (fun tile =>
                       RoadPicker.intersectRoads rp tile
                         (cameraPosition (camera (mapView h))) (groundPoint h x y))
                    (forEachVisibleTile (mapView h)))).
Proof.
  unfold roadHits, groundPoint. split.
  - intros ->. reflexivity.
  - intros rp -> ->. apply intersectRoadsOf_some.
Qed.

(** X13: a handler the constructor built never misses its road picker, whatever
    the two options were (lines 152 to 160 and 291 to 306). *)
Theorem constructed_handler_has_its_picker (mv : MapView) (cam : Camera)
    (enableRoads enableTechnique : bool) (x y : Q) :
  ~ missesRoadPicker (newPickHandler mv cam enableRoads enableTechnique) /\
  exists roads,
    roadHits (newPickHandler mv cam enableRoads enableTechnique) x y = Normal roads.
Proof.
  assert (Hok : ~ missesRoadPicker (newPickHandler mv cam enableRoads enableTechnique)).
  { unfold missesRoadPicker. cbn. destruct enableRoads; intros (He & Hp & _); discriminate. }
  split; [exact Hok |].
  destruct (roadHits (newPickHandler mv cam enableRoads enableTechnique) x y)
    as [roads|[]] eqn:Hr; [exists roads; reflexivity |].
  exfalso. apply Hok. apply (roadHits_throws_iff _ x y). exact Hr.
Qed.
End RoadPhaseFacts.

(** ** When a query throws *)

Section ThrowFacts.
Context {T : Toolkit}.



End ThrowFacts.

(** ** The first result, the empty result and the overlay *)

Section ResultFacts.
Context {T : Toolkit}.

(** The state a query leaves, spelled out. *)
Lemma intersectMapObjects_state (h : PickHandler) (x y : Q) (s s' : PickState)
    (results : list PickResult.t) :
  intersectMapObjects h x y s = Normal (results, s') ->
  exists geometry group roads,
    geometryHits h x y s = Normal (geometry, group) /\
    roadHits h x y = Normal roads /\
    results = Array_sort byDistance (labelHits h x y ++ geometry ++ roads) /\
    updates s' = S (updates s) /\
    m_debugGroup s'
      = match results with
        | first :: _ =>
            addDebugRay (mapView h) (ray (roadRaycaster h x y))
                        (PickResult.distance first) group
        | [] => group
        end.
Proof.
  unfold intersectMapObjects, geometryHits.
  destruct (pickIntersects _ _ _) as [[geometry group]|e]; cbn [bind]; [| discriminate].
  destruct (roadHits h x y) as [roads|e]; cbn [bind]; [| discriminate].
  intros Heq. injection Heq as <- <-.
  exists geometry, group, roads. repeat split.
Qed.

Lemma pickIntersect_group (enablePickTechnique : bool) (intersect : Intersection.t)
    (group group' : list DebugObject) (r : PickResult.t) :
  pickIntersect enablePickTechnique intersect group = Normal (r, group') ->
  exists added, group' = group ++ added.
Proof.
  unfold pickIntersect. destruct (featureOf intersect) as [fd|].
  - destruct (addDebugIntersect intersect group) as [g|e] eqn:Hdbg; cbn [bind];
      [| discriminate].
    destruct (addObjInfo fd intersect _) as [r0|e]; cbn [bind]; [| discriminate].
    intros Heq. injection Heq as _ <-.
    unfold addDebugIntersect in Hdbg.
    destruct (negb (instanceofMesh _));
      [injection Hdbg as <-; exists []; rewrite app_nil_r; reflexivity |].
    destruct (getIntersectedFeatureIndex intersect) as [res|e]; cbn [bind] in Hdbg;
      [| discriminate].
    destruct (Object3D.userData _) as [ud|]; [| discriminate].
    destruct (feature ud) as [fd'|]; [| discriminate].
    destruct (boundingVolumes fd') as [volumes|];
      [| injection Hdbg as <-; eexists; reflexivity].
    destruct (_ >? _); [| injection Hdbg as <-; eexists; reflexivity].
    unfold addDebugBSphere in Hdbg. destruct (array_get _ _); [| discriminate].
    injection Hdbg as <-. rewrite <- app_assoc. eexists. reflexivity.
  - intros Heq. injection Heq as _ <-. exists []. rewrite app_nil_r. reflexivity.
Qed.

Lemma pickIntersects_group (enablePickTechnique : bool) (hits : list Intersection.t) :
  forall group group' results,
    pickIntersects enablePickTechnique hits group = Normal (results, group') ->
    exists added, group' = group ++ added.
Proof.
  induction hits as [|intersect hits IH]; intros group group' results;
    cbn [pickIntersects].
  - intros Heq. injection Heq as _ <-. exists []. rewrite app_nil_r. reflexivity.
  - destruct (pickIntersect enablePickTechnique intersect group) as [[r g]|e] eqn:Hstep;
      cbn [bind fst snd]; [| discriminate].
    destruct (pickIntersects enablePickTechnique hits g) as [[rs g1]|e] eqn:Hrest;
      cbn [bind fst snd]; [| discriminate].
    intros Heq. injection Heq as _ <-.
    destruct (pickIntersect_group _ _ _ _ _ Hstep) as (a1 & ->).
    destruct (IH _ _ _ Hrest) as (a2 & ->).
    exists (a1 ++ a2). rewrite app_assoc. reflexivity.
Qed.

Lemma geometryHits_length (h : PickHandler) (x y : Q) (s : PickState)
    (geometry : list PickResult.t) (group : list DebugObject) :
  geometryHits h x y s = Normal (geometry, group) ->
  List.length geometry = List.length (intersects (broadPhase h x y s)).
Proof.
  unfold geometryHits. intros Hg. apply pickIntersects_fields in Hg.
  destruct Hg as [_ Hd]. apply (f_equal (@List.length Q)) in Hd.
  rewrite !length_map in Hd.
  match type of Hd with
  | context [broadPhase h x y ?c] =>
      destruct (broadPhase_view h x y c s) as [Hview _]; rewrite Hview in Hd
  end.
  exact Hd.
Qed.

Lemma geometryHits_nil (h : PickHandler) (x y : Q) (s : PickState) :
  intersects (broadPhase h x y s) = [] ->
  geometryHits h x y s
    = Normal ([], map redBox (raycastTiles (broadPhase h x y s))).
Proof.
  intros Hnil. unfold geometryHits.
  match goal with
  | |- context [broadPhase h x y ?c] =>
      destruct (broadPhase_view h x y c s) as [Hi Hr];
      destruct (broadPhase_steps h x y c) as (Hr' & _ & Hg)
  end.
  rewrite Hi, Hnil, Hg, <- Hr', Hr. reflexivity.
Qed.

(** X15: the first element of the returned list is the closest hit: no label,
    geometry or road hit has a smaller distance; and the debug ray drawn
    last has exactly that length (lines 308 to 313). *)
Theorem first_result_is_closest (h : PickHandler) (x y : Q) (s s' : PickState)
    (first : PickResult.t) (rest : list PickResult.t) :
  intersectMapObjects h x y s = Normal (first :: rest, s') ->
  exists geometry group roads,
    geometryHits h x y s = Normal (geometry, group) /\
    roadHits h x y = Normal roads /\
    (forall r, In r (labelHits h x y ++ geometry ++ roads) ->
               (PickResult.distance first <= PickResult.distance r)%Q) /\
    exists drawn,
      m_debugGroup s' = group ++ [DebugRay drawn (PickResult.distance first)].
Proof.
  intros Hq.
  destruct (intersectMapObjects_state h x y s s' _ Hq)
    as (geometry & group & roads & Hg & Hr & Hsort & _ & Hgroup).
  exists geometry, group, roads. split; [exact Hg |]. split; [exact Hr |]. split.
  - intros r Hin.
    apply (sorted_head_least PickResult.t PickResult.distance first rest).
    + rewrite Hsort. apply (Array_sort_sorted PickResult.t PickResult.distance).
    + rewrite Hsort.
      exact (Permutation_in r (Array_sort_perm PickResult.t PickResult.distance _) Hin).
  - cbn in Hgroup. unfold addDebugRay in Hgroup. eexists. exact Hgroup.
Qed.

(** X16: a query returns the empty list exactly when there is no label hit, no
    raw intersection and no road hit; it then draws no debug ray: the debug
    group holds the boxes of the tiles that were raycast and nothing else
    (lines 193 to 313). *)
Theorem empty_result_iff_no_hits (h : PickHandler) (x y : Q) (s s' : PickState)
    (results : list PickResult.t) :
  intersectMapObjects h x y s = Normal (results, s') ->
  (results = [] <->
   labelHits h x y = [] /\ intersects (broadPhase h x y s) = [] /\
   roadHits h x y = Normal []) /\
  (results = [] ->
   m_debugGroup s' = map redBox (raycastTiles (broadPhase h x y s))).
Proof.
  intros Hq.
  destruct (intersectMapObjects_state h x y s s' _ Hq)
    as (geometry & group & roads & Hg & Hr & Hsort & _ & Hgroup).
  pose proof (geometryHits_length h x y s geometry group Hg) as Hlen.
  assert (Hiff : results = [] <->
                 labelHits h x y = [] /\ intersects (broadPhase h x y s) = [] /\
                 roadHits h x y = Normal []).
  { pose proof (Permutation_length
                  (Array_sort_perm PickResult.t PickResult.distance
                     (labelHits h x y ++ geometry ++ roads))) as Hperm.
    fold byDistance in Hperm. rewrite <- Hsort in Hperm.
    rewrite !length_app in Hperm. split.
    - intros ->. cbn [List.length] in Hperm.
      destruct (labelHits h x y); [| cbn in Hperm; lia].
      destruct (intersects (broadPhase h x y s)); [| cbn in Hlen, Hperm; lia].
      destruct roads; [| cbn in Hperm; lia].
      repeat split. exact Hr.
    - intros (Hl & Hi & Hroads). rewrite Hl, Hi in *. rewrite Hr in Hroads.
      injection Hroads as ->. destruct geometry; [| cbn in Hlen; lia].
      destruct results; [reflexivity | cbn in Hperm; lia]. }
  split; [exact Hiff |].
  intros Hnil. destruct (proj1 Hiff Hnil) as (_ & Hi & _).
  rewrite (geometryHits_nil h x y s Hi) in Hg. injection Hg as _ <-.
  rewrite Hnil in Hgroup. exact Hgroup.
Qed.

(** X17: the debug group is rebuilt by every query (line 190): the helpers it
    holds afterwards do not depend on its children, on [tmpOBB] or on the
    update count before the call; they begin with one box per raycast tile,
    in order; and the query asks for exactly one update of the map view
    (line 315). *)
Theorem debug_group_is_rebuilt (h : PickHandler) (x y : Q)
    (s1 s2 s1' s2' : PickState) (r1 r2 : list PickResult.t) :
  intersectMapObjects h x y s1 = Normal (r1, s1') ->
  intersectMapObjects h x y s2 = Normal (r2, s2') ->
  m_debugGroup s1' = m_debugGroup s2' /\
  updates s1' = S (updates s1) /\
  exists rest,
    m_debugGroup s1' = map redBox (raycastTiles (broadPhase h x y s1)) ++ rest.
Proof.
  intros H1 H2.
  destruct (intersectMapObjects_state h x y s1 s1' _ H1)
    as (geo1 & g1 & roads1 & Hg1 & Hr1 & Hs1 & Hu1 & Hd1).
  destruct (intersectMapObjects_state h x y s2 s2' _ H2)
    as (geo2 & g2 & roads2 & Hg2 & Hr2 & Hs2 & _ & Hd2).
  assert (Hsame : geometryHits h x y s1 = geometryHits h x y s2).
  { unfold geometryHits.
    repeat match goal with
    | |- context [broadPhase h x y {| tmpOBB := ?b; m_debugGroup := []; updates := ?u |}] =>
        let c := constr:({| tmpOBB := b; m_debugGroup := []; updates := u |}) in
        destruct (broadPhase_steps h x y c) as (_ & -> & ->)
    end.
    reflexivity. }
  rewrite Hsame, Hg2 in Hg1. injection Hg1 as <- <-.
  rewrite Hr2 in Hr1. injection Hr1 as <-. rewrite <- Hs2 in Hs1. subst r1.
  split; [congruence |]. split; [exact Hu1 |].
  assert (Hstart : exists added,
             g2 = map redBox (raycastTiles (broadPhase h x y s1)) ++ added).
  { unfold geometryHits in Hg2.
    match type of Hg2 with
    | context [broadPhase h x y ?c] =>
        destruct (broadPhase_steps h x y c) as (Hr' & _ & Hg');
        destruct (broadPhase_view h x y c s1) as [_ Hv];
        rewrite Hg' in Hg2
    end.
    apply pickIntersects_group in Hg2. destruct Hg2 as (added & ->).
    cbn [m_debugGroup app]. rewrite <- Hv, Hr'. exists added. reflexivity. }
  destruct Hstart as (added & Hstart).
  rewrite Hd1. destruct r2 as [|first rest].
  - exists added. exact Hstart.
  - unfold addDebugRay. rewrite Hstart, <- app_assoc. eexists. reflexivity.
Qed.
End ResultFacts.

(** ** Which index the resolver reads, and how many results come back *)

(** X6: off the point primitives the resolver reads [index] only when the hit has
    no [faceIndex]: two hits on one object with the same defined face index
    resolve alike whatever their [index] is.  On a point primitive it reads
    [index] alone (lines 66 to 68 and 82 to 83). *)
Theorem resolver_reads_one_index (hit1 hit2 : Intersection.t) (fd : TileFeatureData) :
  Intersection.object hit1 = Intersection.object hit2 ->
  featureOf hit1 = Some fd ->
  (instanceofMapViewPoints (Intersection.object hit1) = false ->
   Intersection.faceIndex hit1 = Intersection.faceIndex hit2 ->
   Intersection.faceIndex hit1 <> None ->
   getIntersectedFeatureIndex hit1 = getIntersectedFeatureIndex hit2) /\
  (instanceofMapViewPoints (Intersection.object hit1) = true ->
   Intersection.index hit1 = Intersection.index hit2 ->
   getIntersectedFeatureIndex hit1 = getIntersectedFeatureIndex hit2).
Proof.
  intros Hobj Hf1.
  assert (Hf2 : featureOf hit2 = Some fd) by (unfold featureOf in *; rewrite <- Hobj; exact Hf1).
  split.
  - intros Hnp1 Hface Hdef.
    assert (Hnp2 : instanceofMapViewPoints (Intersection.object hit2) = false)
      by (rewrite <- Hobj; exact Hnp1).
    rewrite (resolver_cases hit1 fd Hf1 Hnp1), (resolver_cases hit2 fd Hf2 Hnp2).
    unfold intersectIndex. rewrite <- Hface.
    destruct (Intersection.faceIndex hit1); [reflexivity | congruence].
  - intros Hp1 Hidx.
    destruct (featureOf_userData _ _ Hf1) as (ud1 & Hud1 & Hfd1).
    destruct (featureOf_userData _ _ Hf2) as (ud2 & Hud2 & Hfd2).
    unfold getIntersectedFeatureIndex.
    rewrite Hud1, Hfd1, Hud2, Hfd2, <- Hobj, Hp1, Hidx. reflexivity.
Qed.

(** X18: a query drops and duplicates nothing: the returned list has as many
    elements as there are label hits, raw intersections and road hits
    together (lines 193 to 310). *)
Theorem result_count {T : Toolkit} (h : PickHandler) (x y : Q) (s s' : PickState)
    (results : list PickResult.t) :
  intersectMapObjects h x y s = Normal (results, s') ->
  exists roads,
    roadHits h x y = Normal roads /\
    List.length results
      = (List.length (labelHits h x y)
         + List.length (intersects (broadPhase h x y s))
         + List.length roads)%nat.
Proof.
  intros Hq.
  destruct (intersectMapObjects_state h x y s s' _ Hq)
    as (geometry & group & roads & Hg & Hr & Hsort & _).
  exists roads. split; [exact Hr |].
  pose proof (Permutation_length
                (Array_sort_perm PickResult.t PickResult.distance
                   (labelHits h x y ++ geometry ++ roads))) as Hperm.
  fold byDistance in Hperm.
  rewrite <- (geometryHits_length h x y s geometry group Hg), Hsort, <- Hperm.
  rewrite !length_app. lia.
Qed.

(** ** These properties on the sample scene *)

(** Index 12 in a buffer with starts 0, 10, 25 lies in the second feature. *)
Lemma resolver_hit_within_feature_range_witness :
  exists k,
    getIntersectedFeatureIndex (lineHit [0; 10; 25] 12) = Normal (Some k) /\
    (forall j, 0 <= j <= k -> exists s, array_get [0; 10; 25] j = Some s /\ s <= 12) /\
    (forall s, array_get [0; 10; 25] (k + 1) = Some s -> 12 < s).
Proof.
  refine (resolver_hit_within_feature_range (lineHit [0; 10; 25] 12)
            (sampleFeature (Some [0; 10; 25]) None) [0; 10; 25] 12
            eq_refl eq_refl eq_refl _ eq_refl).
  simpl. lia.
Defined.

(** Vertex 3 and vertex 12 of one line object resolve to features 0 and 1. *)
Lemma resolver_monotone_witness :
  getIntersectedFeatureIndex (lineHit [0; 10; 25] 3) = Normal (Some 0) /\
  getIntersectedFeatureIndex (lineHit [0; 10; 25] 12) = Normal (Some 1) /\
  0 <= 1.
Proof.
  split; [reflexivity |]. split; [reflexivity |].
  refine (resolver_monotone (lineHit [0; 10; 25] 3) (lineHit [0; 10; 25] 12)
            (sampleFeature (Some [0; 10; 25]) None) 3 12 0 1
            eq_refl eq_refl eq_refl eq_refl eq_refl _ eq_refl eq_refl).
  lia.
Defined.

(** A mesh with a single record, picked with technique information on. *)
Lemma geometry_result_fields_witness :
  exists r group',
    pickIntersect true (sampleHit (sampleObject Mesh (Some singleFeature)) (Some 4) None) []
      = Normal (r, group') /\
    PickResult.technique r = Some 7 /\
    PickResult.featureId r = Some 42.
Proof.
  eexists. eexists. split; [vm_compute; reflexivity |].
  pose proof (@geometry_result_fields sampleToolkit true
                (sampleHit (sampleObject Mesh (Some singleFeature)) (Some 4) None)
                [] _ _ eq_refl) as (_ & _ & _ & Htech & Hid).
  split; [exact Htech | exact Hid].
Defined.

(** The sample query pushes one geometry result for its one intersection. *)
Lemma one_result_per_intersection_witness :
  exists geometry group,
    geometryHits (sampleHandler hitAndMissTiles) 0%Q 0%Q sampleState
      = Normal (geometry, group) /\
    map PickResult.distance geometry = [5%Q].
Proof.
  eexists. eexists. split; [vm_compute; reflexivity |].
  exact (proj2 (@one_result_per_intersection sampleToolkit
                  (sampleHandler hitAndMissTiles) 0%Q 0%Q sampleState _ _ eq_refl)).
Defined.

(** Face 4 of the polygon mesh lies in the second of its three features. *)
Lemma userData_of_containing_feature_witness :
  exists k sk info r group',
    pickIntersect false (sampleHit (sampleObject Mesh (Some polygonFeature)) (Some 4) None) []
      = Normal (r, group') /\
    PickResult.userData r = Some info /\
    array_get [100; 101; 102] k = Some info /\
    array_get [0; 10; 25] k = Some sk /\ sk <= 12 /\
    (forall s, array_get [0; 10; 25] (k + 1) = Some s -> 12 < s).
Proof.
  refine (@userData_of_containing_feature sampleToolkit false
            (sampleHit (sampleObject Mesh (Some polygonFeature)) (Some 4) None)
            polygonFeature [0; 10; 25] [100; 101; 102] 0 12 []
            eq_refl eq_refl eq_refl eq_refl eq_refl _ eq_refl eq_refl _).
  - simpl. lia.
  - lia.
Defined.

(** Point 2 of a point primitive with three records. *)
Lemma userData_of_point_witness :
  exists r group',
    pickIntersect false (pointsHit [0; 10; 25] 2) [] = Normal (r, group') /\
    PickResult.userData r = Some 102.
Proof.
  exact (@userData_of_point sampleToolkit false (pointsHit [0; 10; 25] 2)
           (sampleFeature (Some [0; 10; 25]) None) [100; 101; 102] []
           eq_refl eq_refl eq_refl).
Defined.

(** The sample handler asks its road picker once per visible tile. *)
Lemma road_hits_in_tile_order_witness :
  roadHits (sampleHandler hitAndMissTiles) 0%Q 0%Q
    = Normal [sampleResult PickObjectType.Line 5%Q; sampleResult PickObjectType.Line 5%Q].
Proof.
  exact (proj2 (@road_hits_in_tile_order sampleToolkit
                  (sampleHandler hitAndMissTiles) 0%Q 0%Q)
           (newRoadPicker (sampleMapView hitAndMissTiles)) eq_refl eq_refl).
Defined.


(** The icon at distance 2 is the closest hit of the sample query. *)
Lemma first_result_is_closest_witness :
  exists geometry group roads,
    geometryHits (sampleHandler hitAndMissTiles) 0%Q 0%Q sampleState
      = Normal (geometry, group) /\
    roadHits (sampleHandler hitAndMissTiles) 0%Q 0%Q = Normal roads /\
    (forall r, In r (labelHits (sampleHandler hitAndMissTiles) 0%Q 0%Q ++ geometry ++ roads) ->
               (PickResult.distance (sampleResult PickObjectType.Icon 2%Q)
                <= PickResult.distance r)%Q) /\
    exists drawn,
      m_debugGroup sampleStateAfter
        = group ++ [DebugRay drawn (PickResult.distance (sampleResult PickObjectType.Icon 2%Q))].
Proof.
  refine (@first_result_is_closest sampleToolkit (sampleHandler hitAndMissTiles)
            0%Q 0%Q sampleState sampleStateAfter
            (sampleResult PickObjectType.Icon 2%Q) (tl sampleResults) _).
  vm_compute. reflexivity.
Defined.

(** Nothing to pick: no label renderer, a skipped background tile, a data
    source without tiles and road picking off. *)
Lemma empty_result_iff_no_hits_witness :
  exists s',
    intersectMapObjects emptyHandler 0%Q 0%Q sampleState = Normal ([], s') /\
    m_debugGroup s' = [].
Proof.
  eexists. split; [vm_compute; reflexivity |].
  refine (proj2 (@empty_result_iff_no_hits sampleToolkit emptyHandler 0%Q 0%Q
                   sampleState _ [] _) eq_refl).
  vm_compute. reflexivity.
Defined.

(** The sample query repeated: the overlay of the second call is the overlay
    of the first. *)
Lemma debug_group_is_rebuilt_witness :
  exists r2 s2',
    intersectMapObjects (sampleHandler hitAndMissTiles) 0%Q 0%Q sampleStateAfter
      = Normal (r2, s2') /\
    m_debugGroup sampleStateAfter = m_debugGroup s2'.
Proof.
  eexists. eexists. split; [vm_compute; reflexivity |].
  refine (proj1 (@debug_group_is_rebuilt sampleToolkit (sampleHandler hitAndMissTiles)
                   0%Q 0%Q sampleState sampleStateAfter sampleStateAfter _
                   sampleResults _ _ _)); vm_compute; reflexivity.
Defined.

(** A mesh hit on face 4: the vertex index it may carry is not read. *)
Lemma resolver_reads_one_index_witness :
  getIntersectedFeatureIndex
    (sampleHit (sampleObject Mesh (Some polygonFeature)) (Some 4) (Some 0))
  = getIntersectedFeatureIndex
      (sampleHit (sampleObject Mesh (Some polygonFeature)) (Some 4) (Some 30)).
Proof.
  refine (proj1 (resolver_reads_one_index
                   (sampleHit (sampleObject Mesh (Some polygonFeature)) (Some 4) (Some 0))
                   (sampleHit (sampleObject Mesh (Some polygonFeature)) (Some 4) (Some 30))
                   polygonFeature eq_refl eq_refl) eq_refl eq_refl _).
  discriminate.
Defined.

(** The sample query: two labels, one intersection, two road hits. *)
Lemma result_count_witness :
  exists roads,
    roadHits (sampleHandler hitAndMissTiles) 0%Q 0%Q = Normal roads /\
    List.length sampleResults
      = (List.length (labelHits (sampleHandler hitAndMissTiles) 0%Q 0%Q)
         + List.length (intersects (broadPhase (sampleHandler hitAndMissTiles)
                                      0%Q 0%Q sampleState))
         + List.length roads)%nat.
Proof.
  refine (@result_count sampleToolkit (sampleHandler hitAndMissTiles) 0%Q 0%Q
            sampleState sampleStateAfter sampleResults _).
  vm_compute. reflexivity.
Defined.
